(** * Avatar Productivity API: the task-completion transaction

    A shallow embedding of [backend/server.py]: the three MongoDB
    collections as lists of documents in insertion order, the FastAPI
    handlers as computations in a state-and-exception monad over the
    database, and the coaching-message helper with its [try]/[except]. *)

From Stdlib Require Import ZArith List String Ascii Bool Lia DecimalString.
Import ListNotations.
Open Scope string_scope.
Open Scope Z_scope.

(** ** Python values *)

(** [str(n)] for a Python [int]. *)
Definition str (n : Z) : string := NilZero.string_of_int (Z.to_int n).

(** [sub in s] for two Python strings. *)
Fixpoint contains (sub s : string) : bool :=
  String.prefix sub s ||
  match s with
  | EmptyString => false
  | String _ s' => contains sub s'
  end.

(** Truthiness of the value returned by [os.getenv]: [None] and the empty
    string are both falsy. *)
Definition truthy (v : option string) : bool :=
  match v with
  | None => false
  | Some EmptyString => false
  | Some _ => true
  end.

(** Exceptions, all of them subclasses of Python's [Exception].
    [HTTPException] is the one the handlers raise themselves;
    [OverflowError] is what PyMongo raises for an integer it cannot
    encode; the others stand for what the external chat client can
    raise. *)
Inductive PyException : Type :=
| HTTPException (status_code : Z) (detail : string)
| TimeoutError
| ConnectionError
| AuthenticationError
| MalformedResponse
| OverflowError
| OtherException (msg : string).

Inductive outcome (A : Type) : Type :=
| Returns (a : A)
| Raises (e : PyException).
Arguments Returns {A} a.
Arguments Raises {A} e.

(** [try: body  except Exception as e: handler e]. *)
Definition try_except {A : Type} (body : outcome A)
    (handler : PyException -> outcome A) : outcome A :=
  match body with
  | Returns a => Returns a
  | Raises e => handler e
  end.

(** ** Pydantic models *)

Module User.
Record t : Type := Build {
  id : string;
  name : string;
  email : string;
  xp : Z;
  level : Z;
  avatar_mood : string;
  created_at : Z
}.

(** The model with its declared defaults: [xp = 0], [level = 1],
    [avatar_mood = "neutral"]. *)
Definition default (id name email : string) (created_at : Z) : t :=
  Build id name email 0 1 "neutral" created_at.
End User.

Module Task.
Record t : Type := Build {
  id : string;
  user_id : string;
  title : string;
  description : option string;
  completed : bool;
  xp_reward : Z;
  created_at : Z;
  completed_at : option Z
}.
End Task.

Module AvatarState.
Record t : Type := Build {
  id : string;
  user_id : string;
  mood : string;
  animation : string;
  message : option string;
  timestamp : Z
}.
End AvatarState.

Module TaskCreate.
Record t : Type := Build {
  title : string;
  description : option string;
  xp_reward : Z
}.

(** [xp_reward: int = 10] *)
Definition default (title : string) (description : option string) : t :=
  Build title description 10.
End TaskCreate.

Module TaskComplete.
Record t : Type := Build { task_id : string }.
End TaskComplete.

(** ** MongoDB collections *)

Section Collection.
Variable Doc : Type.

(** [find_one(q)]: the first document, in natural order, matching [q]. *)
Definition find_one (q : Doc -> bool) (c : list Doc) : option Doc :=
  List.find q c.

(** [find(q)] *)
Definition find_all (q : Doc -> bool) (c : list Doc) : list Doc :=
  List.filter q c.

(** [insert_one(d)] *)
Definition insert_one (d : Doc) (c : list Doc) : list Doc := c ++ [d].

(** [update_one(q, {"$set": ...})]: only the first match is changed. *)
Fixpoint update_one (q : Doc -> bool) (set : Doc -> Doc) (c : list Doc)
    : list Doc :=
  match c with
  | [] => []
  | d :: c' => if q d then set d :: c' else d :: update_one q set c'
  end.

(** [delete_one(q)]: the remaining documents and [deleted_count]. *)
Fixpoint delete_one (q : Doc -> bool) (c : list Doc) : list Doc * Z :=
  match c with
  | [] => ([], 0)
  | d :: c' =>
      if q d then (c', 1)
      else let '(r, n) := delete_one q c' in (d :: r, n)
  end.

(** The head of [c] sorted by [key] descending (a stable sort: among
    equal keys the earliest inserted document comes first). *)
Fixpoint first_desc (key : Doc -> Z) (c : list Doc) : option Doc :=
  match c with
  | [] => None
  | d :: c' =>
      match first_desc key c' with
      | None => Some d
      | Some d' => if key d <? key d' then Some d' else Some d
      end
  end.

(** [find_one(q, sort=[(key, -1)])] *)
Definition find_one_sorted_desc (q : Doc -> bool) (key : Doc -> Z)
    (c : list Doc) : option Doc :=
  first_desc key (find_all q c).
End Collection.

Arguments find_one {Doc} q c.
Arguments find_all {Doc} q c.
Arguments insert_one {Doc} d c.
Arguments update_one {Doc} q set c.
Arguments delete_one {Doc} q c.
Arguments first_desc {Doc} key c.
Arguments find_one_sorted_desc {Doc} q key c.

Record db : Type := Db {
  users_collection : list User.t;
  tasks_collection : list Task.t;
  avatar_states_collection : list AvatarState.t
}.

(** ** Handlers: state over [db], with exceptions

    A raised exception ends the handler; whatever was written to the
    collections before it stays written. *)

Definition M (A : Type) : Type := db -> outcome A * db.

Definition ret {A : Type} (a : A) : M A := fun s => (Returns a, s).

Definition raise {A : Type} (e : PyException) : M A := fun s => (Raises e, s).

Definition bind {A B : Type} (m : M A) (k : A -> M B) : M B :=
  fun s =>
    match m s with
    | (Returns a, s') => k a s'
    | (Raises e, s') => (Raises e, s')
    end.

Definition read {A : Type} (f : db -> A) : M A := fun s => (Returns (f s), s).

Definition write (f : db -> db) : M unit := fun s => (Returns tt, f s).

(** [await] on a coroutine that touches no collection. *)
Definition await {A : Type} (o : outcome A) : M A := fun s => (o, s).

(** BSON holds an integer in 8 bytes, signed. *)
Definition fits_int64 (n : Z) : bool :=
  (- 2 ^ 63 <=? n) && (n <=? 2 ^ 63 - 1).

(** PyMongo encodes a document before it sends it, and raises
    [OverflowError] when the document holds an integer beyond 8 bytes:
    nothing is then sent, and nothing written. *)
Definition encode_ints (ns : list Z) : M unit :=
  fun s =>
    if forallb fits_int64 ns then (Returns tt, s)
    else (Raises OverflowError, s).

Notation "x <- m ;; k" := (bind m (fun x => k))
  (at level 61, m at next level, right associativity).
Notation "m ;;; k" := (bind m (fun _ => k))
  (at level 61, right associativity).

Definition with_users (f : list User.t -> list User.t) (s : db) : db :=
  Db (f (users_collection s)) (tasks_collection s)
     (avatar_states_collection s).

Definition with_tasks (f : list Task.t -> list Task.t) (s : db) : db :=
  Db (users_collection s) (f (tasks_collection s))
     (avatar_states_collection s).

Definition with_avatar_states
    (f : list AvatarState.t -> list AvatarState.t) (s : db) : db :=
  Db (users_collection s) (tasks_collection s)
     (f (avatar_states_collection s)).

(** Queries [{"id": i}] and [{"user_id": u}]. *)
Definition user_id_is (i : string) (u : User.t) : bool :=
  String.eqb (User.id u) i.
Definition task_id_is (i : string) (t : Task.t) : bool :=
  String.eqb (Task.id t) i.
Definition task_owner_is (u : string) (t : Task.t) : bool :=
  String.eqb (Task.user_id t) u.
Definition state_owner_is (u : string) (a : AvatarState.t) : bool :=
  String.eqb (AvatarState.user_id a) u.

(** ** What a request reads from outside the database *)

Record LlmChat : Type := {
  api_key : string;
  session_id : string;
  system_message : string;
  model : string * string
}.

Record UserMessage : Type := { text : string }.

Record Env : Type := {
  (** [os.getenv('EMERGENT_LLM_KEY')] *)
  EMERGENT_LLM_KEY : option string;
  (** [await chat.send_message(user_message)]: the reply, or the
      exception the client raises *)
  send_message : LlmChat -> UserMessage -> outcome string;
  (** [uuid.uuid4()] as drawn by a model's default factory *)
  uuid4 : string;
  (** [datetime.now()], by the number of earlier readings in the request *)
  datetime_now : nat -> Z
}.

(** ** AI chat setup *)

Definition no_key_message : string :=
  "Great job completing that task! Keep up the excellent work!".

Definition fallback_message (task_title : string) (user_level : Z) : string :=
  "Amazing work on '" ++ task_title ++ "'! You're crushing it at level "
    ++ str user_level ++ "! 🎉".

(** The chat session built from the key and the user's name. *)
Definition coaching_chat (emergent_key user_name : string) : LlmChat :=
  {| api_key := emergent_key;
     session_id := "avatar_coaching_" ++ user_name;
     system_message :=
       "You are " ++ user_name ++ "'s personal AI avatar companion and productivity coach. You live in their virtual world and your happiness depends on their productivity. Respond as their encouraging avatar friend, not as an AI assistant. Be enthusiastic, personal, and motivating. Keep responses under 50 words.";
     model := ("openai", "gpt-4o-mini") |}.

Definition coaching_prompt (task_title : string) (xp_gained user_level : Z)
    : UserMessage :=
  {| text :=
       "I just completed the task '" ++ task_title ++ "'! I gained "
         ++ str xp_gained ++ " XP and I'm now level " ++ str user_level
         ++ ". Celebrate with me as my avatar companion!" |}.

Definition get_ai_coaching_message (env : Env)
    (user_name task_title : string) (user_level xp_gained : Z)
    : outcome string :=
  try_except
    (match EMERGENT_LLM_KEY env with
     | None => Returns no_key_message
     | Some emergent_key =>
         if negb (truthy (Some emergent_key)) then Returns no_key_message
         else
           let chat := coaching_chat emergent_key user_name in
           let user_message :=
             coaching_prompt task_title xp_gained user_level in
           send_message env chat user_message
     end)
    (fun _ => Returns (fallback_message task_title user_level)).

(** ** API endpoints *)

Definition create_user (user : User.t) : M User.t :=
  write (with_users (insert_one user)) ;;;
  ret user.

Definition get_user (user_id : string) : M User.t :=
  user <- read (fun s => find_one (user_id_is user_id) (users_collection s)) ;;
  match user with
  | None => raise (HTTPException 404 "User not found")
  | Some user => ret user
  end.

Definition create_task (env : Env) (task_create : TaskCreate.t)
    (user_id : string) : M Task.t :=
  let task :=
    Task.Build (uuid4 env) user_id (TaskCreate.title task_create)
      (TaskCreate.description task_create) false
      (TaskCreate.xp_reward task_create) (datetime_now env 0%nat) None in
  write (with_tasks (insert_one task)) ;;;
  ret task.

Definition get_user_tasks (user_id : string) : M (list Task.t) :=
  read (fun s => find_all (task_owner_is user_id) (tasks_collection s)).

Record CompletionResult : Type := {
  message : string;
  xp_gained : Z;
  new_xp : Z;
  new_level : Z;
  level_up : bool;
  avatar_mood : string;
  ai_message : string
}.

Definition set_completed (now : Z) (t : Task.t) : Task.t :=
  Task.Build (Task.id t) (Task.user_id t) (Task.title t)
    (Task.description t) true (Task.xp_reward t) (Task.created_at t)
    (Some now).

Definition set_progress (xp level : Z) (mood : string) (u : User.t)
    : User.t :=
  User.Build (User.id u) (User.name u) (User.email u) xp level mood
    (User.created_at u).

Definition complete_task (env : Env) (task_complete : TaskComplete.t)
    : M CompletionResult :=
  let task_id := TaskComplete.task_id task_complete in
  task <- read (fun s => find_one (task_id_is task_id) (tasks_collection s)) ;;
  match task with
  | None => raise (HTTPException 404 "Task not found")
  | Some task =>
    if Task.completed task
    then raise (HTTPException 400 "Task already completed")
    else
      write (with_tasks
               (update_one (task_id_is task_id)
                  (set_completed (datetime_now env 0%nat)))) ;;;
      user <- read (fun s => find_one (user_id_is (Task.user_id task))
                               (users_collection s)) ;;
      match user with
      | None => raise (HTTPException 404 "User not found")
      | Some user =>
        let new_xp := User.xp user + Task.xp_reward task in
        let new_level := Z.max 1 (new_xp / 100) in
        let new_mood :=
          if new_level >? User.level user then "excited" else "happy" in
        encode_ints [new_xp; new_level] ;;;
        write (with_users
                 (update_one (user_id_is (Task.user_id task))
                    (set_progress new_xp new_level new_mood))) ;;;
        ai_message <- await (get_ai_coaching_message env (User.name user)
                               (Task.title task) new_level
                               (Task.xp_reward task)) ;;
        let avatar_state :=
          AvatarState.Build (uuid4 env) (Task.user_id task) new_mood
            (if new_level >? User.level user
             then "celebrate" else "happy_bounce")
            (Some ai_message) (datetime_now env 1%nat) in
        write (with_avatar_states (insert_one avatar_state)) ;;;
        ret {| message := "Task completed successfully!";
               xp_gained := Task.xp_reward task;
               new_xp := new_xp;
               new_level := new_level;
               level_up := new_level >? User.level user;
               avatar_mood := new_mood;
               ai_message := ai_message |}
      end
  end.

Record AvatarStateView : Type := {
  view_mood : string;
  view_animation : string;
  view_message : option string;
  view_xp : Z;
  view_level : Z
}.

Definition greeting (user_name : string) : string :=
  "Hey " ++ user_name ++ "! I'm ready to celebrate your productivity! 🎯".

Definition get_avatar_state (user_id : string) : M AvatarStateView :=
  user <- read (fun s => find_one (user_id_is user_id) (users_collection s)) ;;
  match user with
  | None => raise (HTTPException 404 "User not found")
  | Some user =>
    latest_state <-
      read (fun s => find_one_sorted_desc (state_owner_is user_id)
                       AvatarState.timestamp (avatar_states_collection s)) ;;
    match latest_state with
    | None =>
      ret {| view_mood := User.avatar_mood user;
             view_animation := "idle";
             view_message := Some (greeting (User.name user));
             view_xp := User.xp user;
             view_level := User.level user |}
    | Some latest_state =>
      ret {| view_mood := AvatarState.mood latest_state;
             view_animation := AvatarState.animation latest_state;
             view_message := AvatarState.message latest_state;
             view_xp := User.xp user;
             view_level := User.level user |}
    end
  end.

Definition delete_task (task_id : string) : M string :=
  deleted_count <-
    (fun s =>
       let '(rest, n) := delete_one (task_id_is task_id) (tasks_collection s) in
       (Returns n, with_tasks (fun _ => rest) s)) ;;
  if deleted_count =? 0
  then raise (HTTPException 404 "Task not found")
  else ret "Task deleted successfully".

(** ** Properties of stored documents *)

(** The level rule of the data model: [level == max(1, xp // 100)]. *)
Definition level_consistent (u : User.t) : Prop :=
  User.level u = Z.max 1 (User.xp u / 100).


(** ** Sample requests and databases *)

Definition env_of (key : option string)
    (service : LlmChat -> UserMessage -> outcome string) : Env :=
  {| EMERGENT_LLM_KEY := key;
     send_message := service;
     uuid4 := "7d1f0a52-3c7e-4b7a-9a55-0c1e6f2b9d10";
     datetime_now := fun n => 1700000000 + Z.of_nat n |}.

(** No credential in the environment. *)
Definition env_no_key : Env :=
  env_of None (fun _ _ => Returns "Woohoo!").

(** A credential, and a service that times out. *)
Definition env_timeout : Env :=
  env_of (Some "sk-test") (fun _ _ => Raises TimeoutError).

(** A credential, and a service that answers. *)
Definition env_up : Env :=
  env_of (Some "sk-test") (fun _ _ => Returns "Woohoo!").

Definition ada (xp level : Z) : User.t :=
  User.Build "u1" "Ada" "ada@example.com" xp level "neutral" 1600000000.

Definition report_task (owner : string) (xp_reward : Z) : Task.t :=
  Task.Build "t1" owner "Write report" None false xp_reward 1650000000 None.

Definition complete_t1 : TaskComplete.t := TaskComplete.Build "t1".

(** Scenario 1: a user at 190 XP, level 1, and a task worth 15 XP. *)
Definition db_scenario1 : db := Db [ada 190 1] [report_task "u1" 15] [].

(** A task whose [user_id] names no stored user, as
    [POST /api/tasks?user_id=ghost] creates it. *)
Definition db_orphan : db := Db [] [report_task "ghost" 10] [].

(** A user posted with [xp = 250] and [level = 1], and a task of theirs. *)
Definition db_stale_level : db := Db [ada 250 1] [report_task "u1" 10] [].

Definition empty_db : db := Db [] [] [].

(** Two avatar states of one user, the later one inserted first. *)
Definition db_two_states : db :=
  Db [ada 260 2] []
     [AvatarState.Build "a2" "u1" "excited" "celebrate" (Some "Level 2!") 200;
      AvatarState.Build "a1" "u1" "happy" "happy_bounce" (Some "Nice.") 100].

(** ** The application's routes *)

(** [GET /api/] *)
Definition root : M string := ret "Avatar Productivity API is running!".

(** A request to one of the routes, with its parsed arguments. *)
Inductive Request : Type :=
| GET_root
| POST_users (user : User.t)
| GET_users (user_id : string)
| POST_tasks (task_create : TaskCreate.t) (user_id : string)
| GET_tasks (user_id : string)
| POST_tasks_complete (task_complete : TaskComplete.t)
| GET_avatar_state (user_id : string)
| DELETE_tasks (task_id : string).

(** The database a request leaves behind, whatever it answers. *)
Definition serve (env : Env) (req : Request) (s : db) : db :=
  match req with
  | GET_root => snd (root s)
  | POST_users user => snd (create_user user s)
  | GET_users user_id => snd (get_user user_id s)
  | POST_tasks task_create user_id =>
      snd (create_task env task_create user_id s)
  | GET_tasks user_id => snd (get_user_tasks user_id s)
  | POST_tasks_complete task_complete =>
      snd (complete_task env task_complete s)
  | GET_avatar_state user_id => snd (get_avatar_state user_id s)
  | DELETE_tasks task_id => snd (delete_task task_id s)
  end.

(** Requests served one after the other, each with what it reads from
    outside the database. *)
Fixpoint run (reqs : list (Env * Request)) (s : db) : db :=
  match reqs with
  | [] => s
  | (env, req) :: rest => run rest (serve env req s)
  end.

(** ** Further properties of stored documents *)

Definition is_some {A : Type} (o : option A) : bool :=
  match o with
  | Some _ => true
  | None => false
  end.

(** [completed_at] is set exactly on the completed tasks. *)
Definition task_dated (t : Task.t) : Prop :=
  Task.completed t = is_some (Task.completed_at t).

(** The two mood and animation pairs [complete_task] writes, with a
    message. *)
Definition state_shaped (a : AvatarState.t) : Prop :=
  (AvatarState.mood a = "excited" /\ AvatarState.animation a = "celebrate" \/
   AvatarState.mood a = "happy" /\ AvatarState.animation a = "happy_bounce") /\
  AvatarState.message a <> None.

(** Some stored user has the avatar state's [user_id]. *)
Definition state_owned (s : db) (a : AvatarState.t) : Prop :=
  In (AvatarState.user_id a) (map User.id (users_collection s)).

(** What of a user no handler writes. *)
Definition identity (u : User.t) : string * string * string * Z :=
  (User.id u, User.name u, User.email u, User.created_at u).

(** What of a task [complete_task] does not write. *)
Definition task_content (t : Task.t)
    : string * string * string * option string * Z * Z :=
  (Task.id t, Task.user_id t, Task.title t, Task.description t,
   Task.xp_reward t, Task.created_at t).

(** The request creates a task with id [i]. *)
Definition creates_task (i : string) (r : Env * Request) : Prop :=
  match snd r with
  | POST_tasks _ _ => uuid4 (fst r) = i
  | _ => False
  end.

(** Every task of the collection with id [i] is completed. *)
Definition settled (i : string) (c : list Task.t) : Prop :=
  Forall (fun t => Task.id t = i -> Task.completed t = true) c.

(** The number of completed tasks in a collection. *)
Definition completed_count (c : list Task.t) : nat :=
  List.length (filter Task.completed c).

(** The avatar state a successful completion appends. *)
Definition completion_state (env : Env) (t : Task.t) (u : User.t)
    (m : string) : AvatarState.t :=
  let new_level := Z.max 1 ((User.xp u + Task.xp_reward t) / 100) in
  AvatarState.Build (uuid4 env) (Task.user_id t)
    (if new_level >? User.level u then "excited" else "happy")
    (if new_level >? User.level u then "celebrate" else "happy_bounce")
    (Some m) (datetime_now env 1%nat).

(** The user document a successful completion writes. *)
Definition completion_user (t : Task.t) (u d : User.t) : User.t :=
  let new_xp := User.xp u + Task.xp_reward t in
  let new_level := Z.max 1 (new_xp / 100) in
  set_progress new_xp new_level
    (if new_level >? User.level u then "excited" else "happy") d.

(** The same user, with no XP lost. *)
Definition no_loss (u u' : User.t) : Prop :=
  identity u = identity u' /\ User.xp u <= User.xp u'.

(** The request posts no task with a negative reward. *)
Definition posts_no_penalty (r : Env * Request) : Prop :=
  match snd r with
  | POST_tasks task_create _ => 0 <= TaskCreate.xp_reward task_create
  | _ => True
  end.

(** ** More sample data *)

Definition call_task : Task.t :=
  Task.Build "t2" "u1" "Call Bo" None false 95 1650000001 None.

Definition complete_t2 : TaskComplete.t := TaskComplete.Build "t2".

(** Two open tasks of one user. *)
Definition db_two_tasks : db :=
  Db [ada 190 1] [report_task "u1" 15; call_task] [].

(** A user at the greatest XP the store can hold, with a 15 XP task. *)
Definition db_full_xp : db :=
  Db [ada 9223372036854775807 92233720368547758] [report_task "u1" 15] [].

Definition bo : User.t := User.default "u2" "Bo" "bo@example.com" 1600000001.

(** * Proofs *)

(** ** Strings *)

Lemma prefix_app (p s : string) : String.prefix p (p ++ s) = true.
Proof.
  induction p as [|c p IH]; simpl.
  - now destruct s.
  - destruct (Ascii.ascii_dec c c) as [_|N]; [exact IH | now elim N].
Qed.

Lemma contains_prefix (p s : string) :
  String.prefix p s = true -> contains p s = true.
Proof. intros H. destruct s; cbn [contains]; rewrite H; reflexivity. Qed.

Lemma contains_app (p a b : string) : contains p (a ++ p ++ b) = true.
Proof.
  induction a as [|c a IH]; cbn [append contains].
  - apply contains_prefix, prefix_app.
  - rewrite IH. apply orb_true_r.
Qed.

Lemma string_app_assoc (a b c : string) : (a ++ b) ++ c = a ++ b ++ c.
Proof. induction a as [|x a IH]; cbn [append]; [reflexivity | now rewrite IH]. Qed.

(** ** Collections *)

Section CollectionFacts.
Context {Doc : Type}.
Implicit Types (q : Doc -> bool) (set : Doc -> Doc) (c : list Doc).

Lemma find_one_update_one_hit q set c d :
  find_one q c = Some d ->
  q (set d) = true ->
  find_one q (update_one q set c) = Some (set d).
Proof.
  unfold find_one. induction c as [|x c IH]; simpl; [discriminate|].
  destruct (q x) eqn:Hx; intros Hd Hset.
  - injection Hd as ->. simpl. now rewrite Hset.
  - simpl. rewrite Hx. now apply IH.
Qed.

Lemma find_one_update_one_miss q q' set c :
  (forall d, q d = true -> q' d = false) ->
  (forall d, q' (set d) = q' d) ->
  find_one q' (update_one q set c) = find_one q' c.
Proof.
  unfold find_one. intros Hdisj Hset.
  induction c as [|x c IH]; simpl; [reflexivity|].
  destruct (q x) eqn:Hx; simpl.
  - now rewrite Hset, (Hdisj x Hx).
  - now rewrite IH.
Qed.

Lemma update_one_no_match q set c :
  find_one q c = None -> update_one q set c = c.
Proof.
  unfold find_one. induction c as [|x c IH]; simpl; [reflexivity|].
  destruct (q x); [discriminate|]. intros H. now rewrite IH.
Qed.

Lemma update_one_map {B : Type} (f : Doc -> B) q set c :
  (forall d, f (set d) = f d) ->
  map f (update_one q set c) = map f c.
Proof.
  intros Hf. induction c as [|x c IH]; simpl; [reflexivity|].
  destruct (q x); simpl; now rewrite ?Hf, ?IH.
Qed.

Lemma update_one_Forall (P : Doc -> Prop) q set c :
  (forall d, q d = true -> P (set d)) ->
  Forall P c -> Forall P (update_one q set c).
Proof.
  intros Hset. induction 1 as [|x c Hx Hc IH]; simpl; [constructor|].
  destruct (q x) eqn:E; constructor; auto.
Qed.


Lemma first_desc_some key c d :
  first_desc key c = Some d ->
  In d c /\ forall d', In d' c -> key d' <= key d.
Proof.
  revert d. induction c as [|x c IH]; simpl; [discriminate|].
  intros d. destruct (first_desc key c) as [m|] eqn:E.
  - destruct (IH m eq_refl) as [Hin Hmax].
    destruct (Z.ltb_spec (key x) (key m)); intros [= <-]; split; auto.
    + intros d' [<-|Hd']; [lia | auto].
    + intros d' [<-|Hd']; [lia | specialize (Hmax d' Hd'); lia].
  - intros [= <-]. split; [now left|].
    destruct c as [|y c]; simpl in E.
    + intros d' [<-|[]]. lia.
    + destruct (first_desc key c) as [m|]; [destruct (key y <? key m)|];
        discriminate.
Qed.

Lemma first_desc_none key c : first_desc key c = None -> c = [].
Proof.
  destruct c as [|x c]; simpl; [reflexivity|].
  destruct (first_desc key c) as [m|]; [destruct (key x <? key m)|];
    discriminate.
Qed.
End CollectionFacts.

(** ** The coaching message *)

Lemma get_ai_coaching_message_returns env user_name task_title lvl xp :
  exists m,
    get_ai_coaching_message env user_name task_title lvl xp = Returns m.
Proof.
  unfold get_ai_coaching_message.
  destruct (EMERGENT_LLM_KEY env) as [k|]; [|simpl; eauto].
  destruct (negb (truthy (Some k))); [simpl; eauto|].
  destruct (send_message env _ _); simpl; eauto.
Qed.

Lemma get_ai_coaching_message_no_key env user_name task_title lvl xp :
  truthy (EMERGENT_LLM_KEY env) = false ->
  get_ai_coaching_message env user_name task_title lvl xp
  = Returns no_key_message.
Proof.
  unfold get_ai_coaching_message. intros H.
  destruct (EMERGENT_LLM_KEY env) as [k|]; [|reflexivity].
  now rewrite H.
Qed.

Lemma level_fits (x : Z) :
  forallb fits_int64 [x; Z.max 1 (x / 100)] = fits_int64 x.
Proof.
  cbn [forallb]. rewrite andb_true_r.
  destruct (fits_int64 x) eqn:E; [|reflexivity]. cbn [andb].
  unfold fits_int64 in *. apply andb_true_iff in E. destruct E as [Hlo Hhi].
  apply Z.leb_le in Hlo, Hhi.
  pose proof (Z.div_mod x 100 ltac:(lia)) as Hd.
  pose proof (Z.mod_pos_bound x 100 ltac:(lia)) as Hm.
  apply andb_true_iff. split; apply Z.leb_le; lia.
Qed.

(** ** The ways through [complete_task] *)

Section CompleteTaskCases.
Variables (env : Env) (tc : TaskComplete.t) (s : db).

Lemma complete_task_unknown :
  find_one (task_id_is (TaskComplete.task_id tc)) (tasks_collection s) = None ->
  complete_task env tc s = (Raises (HTTPException 404 "Task not found"), s).
Proof.
  intros H. unfold complete_task, bind, read. now rewrite H.
Qed.

Lemma complete_task_already (t : Task.t) :
  find_one (task_id_is (TaskComplete.task_id tc)) (tasks_collection s) = Some t ->
  Task.completed t = true ->
  complete_task env tc s
  = (Raises (HTTPException 400 "Task already completed"), s).
Proof.
  intros H Hc. unfold complete_task, bind, read. now rewrite H, Hc.
Qed.

Lemma complete_task_orphan (t : Task.t) :
  find_one (task_id_is (TaskComplete.task_id tc)) (tasks_collection s) = Some t ->
  Task.completed t = false ->
  find_one (user_id_is (Task.user_id t)) (users_collection s) = None ->
  complete_task env tc s
  = (Raises (HTTPException 404 "User not found"),
     with_tasks (update_one (task_id_is (TaskComplete.task_id tc))
                   (set_completed (datetime_now env 0%nat))) s).
Proof.
  intros H Hc Hu. unfold complete_task, bind, read, write.
  rewrite H, Hc. cbn [with_tasks users_collection]. now rewrite Hu.
Qed.

Lemma complete_task_ok (t : Task.t) (u : User.t) :
  find_one (task_id_is (TaskComplete.task_id tc)) (tasks_collection s) = Some t ->
  Task.completed t = false ->
  find_one (user_id_is (Task.user_id t)) (users_collection s) = Some u ->
  fits_int64 (User.xp u + Task.xp_reward t) = true ->
  let new_xp := User.xp u + Task.xp_reward t in
  let new_level := Z.max 1 (new_xp / 100) in
  let up := new_level >? User.level u in
  let new_mood := if up then "excited" else "happy" in
  exists m,
    get_ai_coaching_message env (User.name u) (Task.title t) new_level
      (Task.xp_reward t) = Returns m /\
    complete_task env tc s
    = (Returns {| message := "Task completed successfully!";
                  xp_gained := Task.xp_reward t;
                  new_xp := new_xp;
                  new_level := new_level;
                  level_up := up;
                  avatar_mood := new_mood;
                  ai_message := m |},
       Db (update_one (user_id_is (Task.user_id t))
             (set_progress new_xp new_level new_mood) (users_collection s))
          (update_one (task_id_is (TaskComplete.task_id tc))
             (set_completed (datetime_now env 0%nat)) (tasks_collection s))
          (avatar_states_collection s ++
             [AvatarState.Build (uuid4 env) (Task.user_id t) new_mood
                (if up then "celebrate" else "happy_bounce") (Some m)
                (datetime_now env 1%nat)])).
Proof.
  intros H Hc Hu Hf new_xp new_level up new_mood.
  destruct (get_ai_coaching_message_returns env (User.name u) (Task.title t)
              new_level (Task.xp_reward t)) as [m Hm].
  exists m. split; [exact Hm|].
  unfold complete_task, bind, read, write, await, ret, encode_ints.
  rewrite H, Hc. cbn [with_tasks users_collection]. rewrite Hu.
  rewrite level_fits, Hf.
  fold new_xp. fold new_level. rewrite Hm. reflexivity.
Qed.

Lemma complete_task_overflow (t : Task.t) (u : User.t) :
  find_one (task_id_is (TaskComplete.task_id tc)) (tasks_collection s) = Some t ->
  Task.completed t = false ->
  find_one (user_id_is (Task.user_id t)) (users_collection s) = Some u ->
  fits_int64 (User.xp u + Task.xp_reward t) = false ->
  complete_task env tc s
  = (Raises OverflowError,
     with_tasks (update_one (task_id_is (TaskComplete.task_id tc))
                   (set_completed (datetime_now env 0%nat))) s).
Proof.
  intros H Hc Hu Hf.
  unfold complete_task, bind, read, write, encode_ints.
  rewrite H, Hc. cbn [with_tasks users_collection]. rewrite Hu.
  now rewrite level_fits, Hf.
Qed.
End CompleteTaskCases.

Lemma find_one_holds {Doc : Type} (q : Doc -> bool) c d :
  find_one q c = Some d -> q d = true.
Proof. intros H. now destruct (find_some _ _ H). Qed.

Lemma user_id_is_set_progress i xp lvl mood u :
  user_id_is i (set_progress xp lvl mood u) = user_id_is i u.
Proof. reflexivity. Qed.

Lemma task_id_is_set_completed i now t :
  task_id_is i (set_completed now t) = task_id_is i t.
Proof. reflexivity. Qed.

(** A successful completion found its task not yet completed. *)
Lemma complete_task_returns_fresh env tc s t r s' :
  find_one (task_id_is (TaskComplete.task_id tc)) (tasks_collection s) = Some t ->
  complete_task env tc s = (Returns r, s') ->
  Task.completed t = false.
Proof.
  intros Ht Hr. destruct (Task.completed t) eqn:Hc; [|reflexivity].
  rewrite (complete_task_already env tc s t Ht Hc) in Hr. discriminate.
Qed.

(** A successful completion computed an XP the store can hold. *)
Lemma complete_task_returns_fits env tc s t u r s' :
  find_one (task_id_is (TaskComplete.task_id tc)) (tasks_collection s) = Some t ->
  find_one (user_id_is (Task.user_id t)) (users_collection s) = Some u ->
  complete_task env tc s = (Returns r, s') ->
  fits_int64 (User.xp u + Task.xp_reward t) = true.
Proof.
  intros Ht Hu Hr.
  pose proof (complete_task_returns_fresh env tc s t r s' Ht Hr) as Hc.
  destruct (fits_int64 (User.xp u + Task.xp_reward t)) eqn:Hf; [reflexivity|].
  rewrite (complete_task_overflow env tc s t u Ht Hc Hu Hf) in Hr.
  discriminate.
Qed.

(** What [complete_task] leaves in the collections, whatever it returns. *)
Lemma complete_task_db env tc s :
  snd (complete_task env tc s) = s \/
  exists t,
    find_one (task_id_is (TaskComplete.task_id tc)) (tasks_collection s) = Some t /\
    Task.completed t = false /\
    tasks_collection (snd (complete_task env tc s))
    = update_one (task_id_is (TaskComplete.task_id tc))
        (set_completed (datetime_now env 0%nat)) (tasks_collection s) /\
    (users_collection (snd (complete_task env tc s)) = users_collection s \/
     exists u mood,
       find_one (user_id_is (Task.user_id t)) (users_collection s) = Some u /\
       users_collection (snd (complete_task env tc s))
       = update_one (user_id_is (Task.user_id t))
           (set_progress (User.xp u + Task.xp_reward t)
              (Z.max 1 ((User.xp u + Task.xp_reward t) / 100)) mood)
           (users_collection s)).
Proof.
  destruct (find_one (task_id_is (TaskComplete.task_id tc)) (tasks_collection s))
    as [t|] eqn:Ht.
  2:{ left. now rewrite complete_task_unknown. }
  destruct (Task.completed t) eqn:Hc.
  { left. now rewrite (complete_task_already env tc s t). }
  right. exists t. split; [reflexivity|]. split; [exact Hc|].
  destruct (find_one (user_id_is (Task.user_id t)) (users_collection s))
    as [u|] eqn:Hu.
  - destruct (fits_int64 (User.xp u + Task.xp_reward t)) eqn:Hf.
    + destruct (complete_task_ok env tc s t u Ht Hc Hu Hf) as (m & _ & ->).
      split; [reflexivity|]. right. eexists. eexists.
      split; reflexivity.
    + rewrite (complete_task_overflow env tc s t u Ht Hc Hu Hf).
      split; [reflexivity|]. now left.
  - rewrite (complete_task_orphan env tc s t Ht Hc Hu).
    split; [reflexivity|]. now left.
Qed.

Lemma get_avatar_state_reads_only user_id s :
  snd (get_avatar_state user_id s) = s.
Proof.
  unfold get_avatar_state, bind, read.
  destruct (find_one _ (users_collection s)); [|reflexivity].
  destruct (find_one_sorted_desc _ _ _); reflexivity.
Qed.

(** * The claims *)

(** C1.  A failing [complete_task] is claimed to change nothing, and in
    particular to leave the task not completed when its owning user does
    not exist.  The handler marks the task completed before it looks the
    user up: on a database holding one open task of an unknown user it
    raises 404 "User not found", and the stored task is completed. *)
Theorem complete_task_missing_owner_marks_task_completed :
  option_map Task.completed
    (find_one (task_id_is "t1") (tasks_collection db_orphan)) = Some false /\
  find_one (user_id_is "ghost") (users_collection db_orphan) = None /\
  complete_task env_no_key complete_t1 db_orphan
  = (Raises (HTTPException 404 "User not found"),
     Db [] [set_completed 1700000000 (report_task "ghost" 10)] []) /\
  option_map Task.completed
    (find_one (task_id_is "t1")
       (tasks_collection (snd (complete_task env_no_key complete_t1 db_orphan))))
  = Some true /\
  snd (complete_task env_no_key complete_t1 db_orphan) <> db_orphan.
Proof.
  repeat split; try reflexivity.
  intros H. apply (f_equal tasks_collection) in H.
  vm_compute in H. discriminate.
Qed.

(** C2, as claimed, fails: the store holds an integer in 8 bytes.  For a
    user stored at 9223372036854775807 XP and an open task worth 15, the
    user update raises [OverflowError] and the user's XP is what it
    was. *)
Lemma complete_task_beyond_store_awards_nothing :
  option_map Task.completed
    (find_one (task_id_is "t1") (tasks_collection db_full_xp)) = Some false /\
  option_map User.xp
    (find_one (user_id_is "u1") (users_collection db_full_xp))
  = Some 9223372036854775807 /\
  fst (complete_task env_up complete_t1 db_full_xp) = Raises OverflowError /\
  users_collection (snd (complete_task env_up complete_t1 db_full_xp))
  = users_collection db_full_xp.
Proof. repeat split. Qed.

(** C2, amended.  Completing an existing, not yet completed task of an
    existing user, when the user's XP plus the reward fits the store's
    signed 8-byte integer, succeeds and adds exactly the task's
    [xp_reward] to that user's XP, leaving every other user as found,
    and a second [complete_task] for the same task raises 400 "Task
    already completed" and leaves the database, and so the user's XP,
    unchanged.  When the sum does not fit, the call raises
    [OverflowError] and no user is changed. *)
Theorem complete_task_awards_once env env' tc s t u :
  find_one (task_id_is (TaskComplete.task_id tc)) (tasks_collection s) = Some t ->
  Task.completed t = false ->
  find_one (user_id_is (Task.user_id t)) (users_collection s) = Some u ->
  (fits_int64 (User.xp u + Task.xp_reward t) = true ->
   exists r s1,
     complete_task env tc s = (Returns r, s1) /\
     xp_gained r = Task.xp_reward t /\
     (exists u1,
        find_one (user_id_is (Task.user_id t)) (users_collection s1) = Some u1 /\
        User.xp u1 = User.xp u + Task.xp_reward t) /\
     (forall i, i <> Task.user_id t ->
        find_one (user_id_is i) (users_collection s1)
        = find_one (user_id_is i) (users_collection s)) /\
     complete_task env' tc s1
     = (Raises (HTTPException 400 "Task already completed"), s1)) /\
  (fits_int64 (User.xp u + Task.xp_reward t) = false ->
   exists s1,
     complete_task env tc s = (Raises OverflowError, s1) /\
     users_collection s1 = users_collection s).
Proof.
  intros Ht Hc Hu. split; intros Hf.
  - destruct (complete_task_ok env tc s t u Ht Hc Hu Hf) as (m & _ & E).
    eexists. eexists. split; [exact E|].
    split; [reflexivity|]. cbn [users_collection]. split; [|split].
    + eexists. split.
      * apply find_one_update_one_hit; [exact Hu|].
        rewrite user_id_is_set_progress. exact (find_one_holds _ _ _ Hu).
      * reflexivity.
    + intros i Hi. apply find_one_update_one_miss.
      * intros d Hd. apply String.eqb_eq in Hd. apply String.eqb_neq.
        congruence.
      * intros d. apply user_id_is_set_progress.
    + eapply complete_task_already; cbn [tasks_collection].
      * apply find_one_update_one_hit; [exact Ht|].
        rewrite task_id_is_set_completed. exact (find_one_holds _ _ _ Ht).
      * reflexivity.
  - eexists. split; [exact (complete_task_overflow env tc s t u Ht Hc Hu Hf)|].
    reflexivity.
Qed.

Lemma complete_task_awards_once_scenario1 :
  exists r s1,
    complete_task env_timeout complete_t1 db_scenario1 = (Returns r, s1) /\
    xp_gained r = 15 /\
    (exists u1,
       find_one (user_id_is "u1") (users_collection s1) = Some u1 /\
       User.xp u1 = 190 + 15) /\
    (forall i, i <> "u1" ->
       find_one (user_id_is i) (users_collection s1)
       = find_one (user_id_is i) (users_collection db_scenario1)) /\
    complete_task env_up complete_t1 s1
    = (Raises (HTTPException 400 "Task already completed"), s1).
Proof.
  exact (proj1 (complete_task_awards_once env_timeout env_up complete_t1
                  db_scenario1 (report_task "u1" 15) (ada 190 1)
                  eq_refl eq_refl eq_refl) eq_refl).
Defined.

(** C3, as claimed, fails: [create_user] stores the posted document as it
    is, so a user posted with [xp = 250] and [level = 1] is stored with a
    level that is not [max(1, 250 // 100)]. *)
Lemma create_user_stores_posted_level :
  users_collection (snd (create_user (ada 250 1) empty_db)) = [ada 250 1] /\
  ~ Forall level_consistent
      (users_collection (snd (create_user (ada 250 1) empty_db))).
Proof.
  split; [reflexivity|]. intros H. inversion H as [|x l Hx Hl]; subst.
  vm_compute in Hx. discriminate.
Qed.

(** C3, amended.  [create_user] neither checks nor recomputes [level]: a
    user built with the model's defaults satisfies
    [level == max(1, xp // 100)], and when every stored user satisfies it,
    so does every stored user after [create_user] of a document that
    satisfies it and after any [complete_task]. *)
Theorem level_rule_preserved s :
  Forall level_consistent (users_collection s) ->
  (forall id name email now,
     level_consistent (User.default id name email now)) /\
  (forall user,
     level_consistent user ->
     Forall level_consistent (users_collection (snd (create_user user s)))) /\
  (forall env tc,
     Forall level_consistent (users_collection (snd (complete_task env tc s)))).
Proof.
  intros Hs. split; [|split].
  - intros. reflexivity.
  - intros user Hu. cbn. unfold insert_one.
    apply Forall_app. split; [exact Hs|]. now constructor.
  - intros env tc.
    destruct (complete_task_db env tc s) as [->|(t & _ & _ & _ & [->|Hu])];
      try exact Hs.
    destruct Hu as (u & mood & _ & ->).
    apply update_one_Forall; [|exact Hs].
    intros d _. reflexivity.
Qed.

Lemma level_rule_preserved_scenario1 :
  Forall level_consistent (users_collection db_scenario1) /\
  Forall level_consistent
    (users_collection
       (snd (create_user (User.default "u2" "Bo" "bo@example.com" 1600000001)
               db_scenario1))) /\
  Forall level_consistent
    (users_collection (snd (complete_task env_timeout complete_t1 db_scenario1))).
Proof.
  assert (H : Forall level_consistent (users_collection db_scenario1))
    by (repeat constructor).
  split; [exact H|].
  destruct (level_rule_preserved db_scenario1 H) as (Hd & Hc & Hk).
  split; [apply Hc, Hd | apply Hk].
Defined.

(** C4.  A successful [complete_task] on task [t] of user [u] returns
    [xp_gained = t.xp_reward], [new_xp = u.xp + t.xp_reward],
    [new_level = max(1, new_xp // 100)] and
    [level_up = (new_level > u.level)]; the mood is "excited" and the
    animation of the appended avatar state "celebrate" on a level-up,
    "happy" and "happy_bounce" otherwise.  With [u.xp = 190],
    [u.level = 1] and [t.xp_reward = 15] the result is 15, 205, 2, true
    and "excited". *)
Theorem complete_task_result env tc s t u r s' :
  find_one (task_id_is (TaskComplete.task_id tc)) (tasks_collection s) = Some t ->
  find_one (user_id_is (Task.user_id t)) (users_collection s) = Some u ->
  complete_task env tc s = (Returns r, s') ->
  xp_gained r = Task.xp_reward t /\
  new_xp r = User.xp u + Task.xp_reward t /\
  new_level r = Z.max 1 (new_xp r / 100) /\
  level_up r = (new_level r >? User.level u) /\
  avatar_mood r = (if level_up r then "excited" else "happy") /\
  (exists a,
     avatar_states_collection s' = (avatar_states_collection s ++ [a])%list /\
     AvatarState.user_id a = Task.user_id t /\
     AvatarState.mood a = avatar_mood r /\
     AvatarState.animation a
     = (if level_up r then "celebrate" else "happy_bounce") /\
     AvatarState.message a = Some (ai_message r)) /\
  (User.xp u = 190 -> User.level u = 1 -> Task.xp_reward t = 15 ->
   xp_gained r = 15 /\ new_xp r = 205 /\ new_level r = 2 /\
   level_up r = true /\ avatar_mood r = "excited").
Proof.
  intros Ht Hu Hr.
  pose proof (complete_task_returns_fresh env tc s t r s' Ht Hr) as Hc.
  pose proof (complete_task_returns_fits env tc s t u r s' Ht Hu Hr) as Hf.
  destruct (complete_task_ok env tc s t u Ht Hc Hu Hf) as (m & _ & E).
  rewrite E in Hr. injection Hr as <- <-. cbn.
  repeat (split; [reflexivity|]). split.
  - eexists. split; [reflexivity|]. cbn. repeat split; reflexivity.
  - intros -> -> ->. repeat split; reflexivity.
Qed.

Lemma complete_task_result_scenario1 :
  exists r s',
    complete_task env_timeout complete_t1 db_scenario1 = (Returns r, s') /\
    xp_gained r = 15 /\ new_xp r = 205 /\ new_level r = 2 /\
    level_up r = true /\ avatar_mood r = "excited".
Proof.
  destruct (complete_task env_timeout complete_t1 db_scenario1)
    as [[r|e] s'] eqn:E; [|vm_compute in E; discriminate].
  exists r, s'. split; [reflexivity|].
  destruct (complete_task_result env_timeout complete_t1 db_scenario1
              (report_task "u1" 15) (ada 190 1) r s' eq_refl eq_refl E)
    as (_ & _ & _ & _ & _ & _ & H).
  apply H; reflexivity.
Defined.

(** C5, as claimed, fails: without a credential the message returned for
    the task "Write report" is the fixed sentence, which does not contain
    the title; and for a user stored at 9223372036854775807 XP the call
    does not succeed, the user update raising [OverflowError]. *)
Lemma no_key_message_omits_title :
  EMERGENT_LLM_KEY env_no_key = None /\
  (exists r s',
     complete_task env_no_key complete_t1 db_scenario1 = (Returns r, s') /\
     ai_message r
     = "Great job completing that task! Keep up the excellent work!" /\
     contains (Task.title (report_task "u1" 15)) (ai_message r) = false) /\
  fst (complete_task env_no_key complete_t1 db_full_xp) = Raises OverflowError.
Proof.
  split; [reflexivity|]. split; [|reflexivity]. vm_compute. eexists. eexists.
  repeat split; reflexivity.
Qed.

(** C5, amended.  With no credential configured (unset or empty),
    [complete_task] on an existing, not yet completed task of an existing
    user, when the user's XP plus the reward fits the store's signed
    8-byte integer, still succeeds, and its [ai_message] is the fixed
    non-empty sentence "Great job completing that task! Keep up the
    excellent work!", whatever the task's title. *)
Theorem complete_task_without_key env tc s t u :
  truthy (EMERGENT_LLM_KEY env) = false ->
  find_one (task_id_is (TaskComplete.task_id tc)) (tasks_collection s) = Some t ->
  Task.completed t = false ->
  find_one (user_id_is (Task.user_id t)) (users_collection s) = Some u ->
  fits_int64 (User.xp u + Task.xp_reward t) = true ->
  exists r s',
    complete_task env tc s = (Returns r, s') /\
    ai_message r = no_key_message /\
    ai_message r <> "" /\
    no_key_message
    = "Great job completing that task! Keep up the excellent work!".
Proof.
  intros Hk Ht Hc Hu Hf.
  destruct (complete_task_ok env tc s t u Ht Hc Hu Hf) as (m & Hm & E).
  rewrite get_ai_coaching_message_no_key in Hm by exact Hk.
  injection Hm as <-.
  eexists. eexists. split; [exact E|]. cbn.
  repeat split. discriminate.
Qed.

Lemma complete_task_without_key_scenario1 :
  exists r s',
    complete_task env_no_key complete_t1 db_scenario1 = (Returns r, s') /\
    ai_message r = no_key_message /\
    ai_message r <> "" /\
    no_key_message
    = "Great job completing that task! Keep up the excellent work!".
Proof.
  exact (complete_task_without_key env_no_key complete_t1 db_scenario1
           (report_task "u1" 15) (ada 190 1)
           eq_refl eq_refl eq_refl eq_refl eq_refl).
Defined.

(** C6, as claimed, fails: [level_up] compares the new level with the
    level stored on the user.  For a user stored with [xp = 250] and
    [level = 1], a 10 XP task gives [level_up = true], while the level of
    260 XP is not greater than the level of 250 XP. *)
Lemma level_up_reads_stored_level :
  exists r s',
    complete_task env_no_key complete_t1 db_stale_level = (Returns r, s') /\
    new_xp r = 260 /\
    level_up r = true /\
    (Z.max 1 (new_xp r / 100) >? Z.max 1 (User.xp (ada 250 1) / 100)) = false.
Proof. vm_compute. eexists. eexists. repeat split; reflexivity. Qed.

(** C6, amended.  For every successful completion [level_up] equals
    [new_level > u.level] for the level stored on the user record, and so
    equals [max(1, new_xp // 100) > max(1, old_xp // 100)] whenever the
    stored level is [max(1, old_xp // 100)]. *)
Theorem level_up_against_stored_level env tc s t u r s' :
  find_one (task_id_is (TaskComplete.task_id tc)) (tasks_collection s) = Some t ->
  find_one (user_id_is (Task.user_id t)) (users_collection s) = Some u ->
  complete_task env tc s = (Returns r, s') ->
  level_up r = (Z.max 1 (new_xp r / 100) >? User.level u) /\
  (level_consistent u ->
   level_up r = (Z.max 1 (new_xp r / 100) >? Z.max 1 (User.xp u / 100))).
Proof.
  intros Ht Hu Hr.
  pose proof (complete_task_returns_fresh env tc s t r s' Ht Hr) as Hc.
  pose proof (complete_task_returns_fits env tc s t u r s' Ht Hu Hr) as Hf.
  destruct (complete_task_ok env tc s t u Ht Hc Hu Hf) as (m & _ & E).
  rewrite E in Hr. injection Hr as <- <-. cbn.
  split; [reflexivity|]. intros Hl. now rewrite <- Hl.
Qed.

Lemma level_up_against_stored_level_scenario1 :
  level_consistent (ada 190 1) /\
  exists r s',
    complete_task env_up complete_t1 db_scenario1 = (Returns r, s') /\
    level_up r = (Z.max 1 (new_xp r / 100) >? Z.max 1 (190 / 100)).
Proof.
  split; [reflexivity|].
  destruct (complete_task env_up complete_t1 db_scenario1)
    as [[r|e] s'] eqn:E; [|vm_compute in E; discriminate].
  exists r, s'. split; [reflexivity|].
  destruct (level_up_against_stored_level env_up complete_t1 db_scenario1
              (report_task "u1" 15) (ada 190 1) r s' eq_refl eq_refl E)
    as [_ H].
  apply H. reflexivity.
Defined.

(** C7.  For every input [get_ai_coaching_message] returns a string and
    raises nothing; and whenever the call to the external service raises
    (a timeout, a connection or authentication error, a malformed
    response, or any other exception), it returns the templated fallback
    "Amazing work on '<title>'! You're crushing it at level <level>! ...",
    which contains the task title and the level in decimal. *)
Theorem coaching_failure_absorbed env user_name task_title lvl xp :
  (exists m,
     get_ai_coaching_message env user_name task_title lvl xp = Returns m) /\
  (forall emergent_key e,
     EMERGENT_LLM_KEY env = Some emergent_key ->
     truthy (Some emergent_key) = true ->
     send_message env (coaching_chat emergent_key user_name)
       (coaching_prompt task_title xp lvl) = Raises e ->
     get_ai_coaching_message env user_name task_title lvl xp
     = Returns (fallback_message task_title lvl)) /\
  fallback_message task_title lvl
  = "Amazing work on '" ++ task_title ++ "'! You're crushing it at level "
      ++ str lvl ++ "! 🎉" /\
  contains task_title (fallback_message task_title lvl) = true /\
  contains (str lvl) (fallback_message task_title lvl) = true.
Proof.
  split; [apply get_ai_coaching_message_returns|].
  split; [|split; [reflexivity|split]].
  - intros k e Hk Ht Hs. unfold get_ai_coaching_message.
    rewrite Hk, Ht. cbn [negb]. now rewrite Hs.
  - unfold fallback_message. apply contains_app.
  - unfold fallback_message.
    rewrite <- (string_app_assoc "Amazing work on '" task_title
                  ("'! You're crushing it at level " ++ str lvl ++ "! 🎉")).
    rewrite <- (string_app_assoc ("Amazing work on '" ++ task_title)
                  "'! You're crushing it at level " (str lvl ++ "! 🎉")).
    apply contains_app.
Qed.

Lemma coaching_failure_absorbed_timeout :
  send_message env_timeout (coaching_chat "sk-test" "Ada")
    (coaching_prompt "Write report" 15 2) = Raises TimeoutError /\
  get_ai_coaching_message env_timeout "Ada" "Write report" 2 15
  = Returns "Amazing work on 'Write report'! You're crushing it at level 2! 🎉".
Proof.
  split; [reflexivity|].
  destruct (coaching_failure_absorbed env_timeout "Ada" "Write report" 2 15)
    as (_ & H & _).
  exact (H "sk-test" TimeoutError eq_refl eq_refl eq_refl).
Defined.

(** C8.  [get_avatar_state] raises 404 "User not found" when no user has
    the id; for an existing user without avatar states it returns the
    user's [avatar_mood], the animation "idle", a greeting that contains
    the user's name, and the user's [xp] and [level]; and in every case it
    leaves the database as it found it. *)
Theorem get_avatar_state_default user_id s :
  (find_one (user_id_is user_id) (users_collection s) = None ->
   get_avatar_state user_id s
   = (Raises (HTTPException 404 "User not found"), s)) /\
  (forall u,
     find_one (user_id_is user_id) (users_collection s) = Some u ->
     find_all (state_owner_is user_id) (avatar_states_collection s) = [] ->
     get_avatar_state user_id s
     = (Returns {| view_mood := User.avatar_mood u;
                   view_animation := "idle";
                   view_message := Some (greeting (User.name u));
                   view_xp := User.xp u;
                   view_level := User.level u |}, s) /\
     contains (User.name u) (greeting (User.name u)) = true) /\
  snd (get_avatar_state user_id s) = s.
Proof.
  split; [|split].
  - unfold get_avatar_state, bind, read. intros ->. reflexivity.
  - unfold get_avatar_state, bind, read, find_one_sorted_desc.
    intros u -> ->. split; [reflexivity|].
    unfold greeting. apply contains_app.
  - apply get_avatar_state_reads_only.
Qed.

Lemma get_avatar_state_default_scenario1 :
  get_avatar_state "nobody" db_scenario1
  = (Raises (HTTPException 404 "User not found"), db_scenario1) /\
  get_avatar_state "u1" db_scenario1
  = (Returns {| view_mood := "neutral";
                view_animation := "idle";
                view_message :=
                  Some "Hey Ada! I'm ready to celebrate your productivity! 🎯";
                view_xp := 190;
                view_level := 1 |}, db_scenario1).
Proof.
  split.
  - exact (proj1 (get_avatar_state_default "nobody" db_scenario1) eq_refl).
  - exact (proj1 (proj1 (proj2 (get_avatar_state_default "u1" db_scenario1))
                    (ada 190 1) eq_refl eq_refl)).
Defined.



Lemma state_owner_is_iff u a :
  state_owner_is u a = true <-> AvatarState.user_id a = u.
Proof. apply String.eqb_eq. Qed.

(** The latest avatar state of a user who has one. *)
Lemma latest_state_exists user_id (c : list AvatarState.t) a :
  In a c -> AvatarState.user_id a = user_id ->
  exists latest,
    find_one_sorted_desc (state_owner_is user_id) AvatarState.timestamp c
    = Some latest /\
    In latest c /\ AvatarState.user_id latest = user_id /\
    forall a', In a' c -> AvatarState.user_id a' = user_id ->
               AvatarState.timestamp a' <= AvatarState.timestamp latest.
Proof.
  intros Ha Hu. unfold find_one_sorted_desc, find_all.
  destruct (first_desc AvatarState.timestamp
              (filter (state_owner_is user_id) c)) as [latest|] eqn:E.
  - destruct (first_desc_some _ _ _ E) as [Hin Hmax].
    apply filter_In in Hin. destruct Hin as [Hin Hown].
    exists latest. split; [reflexivity|]. split; [exact Hin|].
    split; [now apply state_owner_is_iff|].
    intros a' Ha' Hu'. apply Hmax. apply filter_In.
    split; [exact Ha'|now apply state_owner_is_iff].
  - apply first_desc_none in E.
    assert (Hf : In a (filter (state_owner_is user_id) c)).
    { apply filter_In. split; [exact Ha|now apply state_owner_is_iff]. }
    rewrite E in Hf. destruct Hf.
Qed.

(** C10.  For an existing user with at least one avatar state,
    [get_avatar_state] returns the mood, animation and message of a stored
    state of that user whose timestamp no other state of the user exceeds,
    together with the [xp] and [level] of the user document as it is now:
    with the same avatar states and any other current user document, the
    same three fields come with that document's [xp] and [level]. *)
Theorem get_avatar_state_latest user_id s u a :
  find_one (user_id_is user_id) (users_collection s) = Some u ->
  In a (avatar_states_collection s) ->
  AvatarState.user_id a = user_id ->
  exists latest,
    In latest (avatar_states_collection s) /\
    AvatarState.user_id latest = user_id /\
    (forall a',
       In a' (avatar_states_collection s) ->
       AvatarState.user_id a' = user_id ->
       AvatarState.timestamp a' <= AvatarState.timestamp latest) /\
    get_avatar_state user_id s
    = (Returns {| view_mood := AvatarState.mood latest;
                  view_animation := AvatarState.animation latest;
                  view_message := AvatarState.message latest;
                  view_xp := User.xp u;
                  view_level := User.level u |}, s) /\
    (forall s2 u2,
       avatar_states_collection s2 = avatar_states_collection s ->
       find_one (user_id_is user_id) (users_collection s2) = Some u2 ->
       get_avatar_state user_id s2
       = (Returns {| view_mood := AvatarState.mood latest;
                     view_animation := AvatarState.animation latest;
                     view_message := AvatarState.message latest;
                     view_xp := User.xp u2;
                     view_level := User.level u2 |}, s2)).
Proof.
  intros Hu Ha Hown.
  destruct (latest_state_exists user_id (avatar_states_collection s) a Ha Hown)
    as (latest & Hl & Hin & Hlo & Hmax).
  exists latest. repeat (split; [assumption|]).
  assert (Hget : forall s2 u2,
             avatar_states_collection s2 = avatar_states_collection s ->
             find_one (user_id_is user_id) (users_collection s2) = Some u2 ->
             get_avatar_state user_id s2
             = (Returns {| view_mood := AvatarState.mood latest;
                           view_animation := AvatarState.animation latest;
                           view_message := AvatarState.message latest;
                           view_xp := User.xp u2;
                           view_level := User.level u2 |}, s2)).
  { intros s2 u2 Hs2 Hu2. unfold get_avatar_state, bind, read.
    now rewrite Hu2, Hs2, Hl. }
  split; [apply Hget; [reflexivity | exact Hu] | exact Hget].
Qed.

Lemma get_avatar_state_latest_two_states :
  get_avatar_state "u1" db_two_states
  = (Returns {| view_mood := "excited";
                view_animation := "celebrate";
                view_message := Some "Level 2!";
                view_xp := 260;
                view_level := 2 |}, db_two_states).
Proof.
  destruct (get_avatar_state_latest "u1" db_two_states (ada 260 2)
              (AvatarState.Build "a1" "u1" "happy" "happy_bounce"
                 (Some "Nice.") 100)
              eq_refl (or_intror (or_introl eq_refl)) eq_refl)
    as (latest & Hin & _ & Hmax & Hget & _).
  rewrite Hget. clear Hget.
  destruct Hin as [<-|[<-|[]]]; [reflexivity|].
  specialize (Hmax (AvatarState.Build "a2" "u1" "excited" "celebrate"
                      (Some "Level 2!") 200)
                (or_introl eq_refl) eq_refl).
  cbn in Hmax. lia.
Defined.

(** * Further properties of the handlers *)

(** ** Lookups in grown and shrunk collections *)


Lemma find_one_none_iff {Doc : Type} (q : Doc -> bool) c :
  find_one q c = None <-> forall d, In d c -> q d = false.
Proof.
  unfold find_one. split.
  - intros H d Hd. exact (find_none _ _ H d Hd).
  - induction c as [|x c IH]; simpl; [reflexivity|]. intros H.
    rewrite (H x (or_introl eq_refl)). apply IH. intros d Hd.
    apply H. now right.
Qed.

Lemma delete_one_absent {Doc : Type} (q : Doc -> bool) c :
  find_one q c = None -> delete_one q c = (c, 0).
Proof.
  unfold find_one. induction c as [|x c IH]; simpl; [reflexivity|].
  destruct (q x); [discriminate|]. intros H. now rewrite (IH H).
Qed.

Lemma delete_one_present {Doc : Type} (q : Doc -> bool) c d :
  find_one q c = Some d ->
  exists before after,
    c = (before ++ d :: after)%list /\
    (forall x, In x before -> q x = false) /\
    delete_one q c = ((before ++ after)%list, 1).
Proof.
  unfold find_one. induction c as [|x c IH]; simpl; [discriminate|].
  destruct (q x) eqn:Hx.
  - intros [= ->]. exists [], c. repeat split. intros y [].
  - intros H. destruct (IH H) as (before & after & -> & Hb & E).
    exists (x :: before), after. rewrite E. repeat split.
    intros y [<-|Hy]; [exact Hx | now apply Hb].
Qed.

Lemma db_eta s :
  Db (users_collection s) (tasks_collection s) (avatar_states_collection s) = s.
Proof. now destruct s. Qed.

(** ** Users *)



(** X2.  [get_user] returns only a stored user with the asked id, raises
    404 "User not found" exactly when no stored user has it, raises
    nothing else, and writes nothing. *)
Theorem get_user_found_iff user_id s :
  (forall u,
     fst (get_user user_id s) = Returns u ->
     In u (users_collection s) /\ User.id u = user_id) /\
  (fst (get_user user_id s) = Raises (HTTPException 404 "User not found") <->
   forall u, In u (users_collection s) -> User.id u <> user_id) /\
  (forall e,
     fst (get_user user_id s) = Raises e ->
     e = HTTPException 404 "User not found") /\
  snd (get_user user_id s) = s.
Proof.
  unfold get_user, bind, read.
  destruct (find_one (user_id_is user_id) (users_collection s)) as [u|] eqn:E;
    cbn.
  - destruct (find_some _ _ E) as [Hin Hid]. apply String.eqb_eq in Hid.
    split; [|split; [|split]].
    + intros u' [= <-]. now split.
    + split; [discriminate|]. intros H. elim (H u Hin Hid).
    + discriminate.
    + reflexivity.
  - split; [|split; [|split]].
    + discriminate.
    + split; [|reflexivity]. intros _ u Hu. apply String.eqb_neq.
      exact (proj1 (find_one_none_iff _ _) E u Hu).
    + now intros e [= <-].
    + reflexivity.
Qed.

Lemma get_user_found_iff_scenario1 :
  fst (get_user "nobody" db_scenario1)
  = Raises (HTTPException 404 "User not found").
Proof.
  apply (proj1 (proj2 (get_user_found_iff "nobody" db_scenario1))).
  intros u [<-|[]]. discriminate.
Defined.

(** ** Tasks *)

Lemma task_owner_is_iff u t : task_owner_is u t = true <-> Task.user_id t = u.
Proof. apply String.eqb_eq. Qed.

Lemma task_id_is_iff i t : task_id_is i t = true <-> Task.id t = i.
Proof. apply String.eqb_eq. Qed.


(** X4.  [get_user_tasks] never raises and never writes: it returns
    exactly the stored tasks whose [user_id] is the one asked, in stored
    order, and the empty list when there is none, also for an id no
    stored user has. *)
Theorem get_user_tasks_exact user_id s :
  exists tasks,
    get_user_tasks user_id s = (Returns tasks, s) /\
    (forall t,
       In t tasks <-> In t (tasks_collection s) /\ Task.user_id t = user_id) /\
    tasks = filter (task_owner_is user_id) (tasks_collection s) /\
    ((forall t, In t (tasks_collection s) -> Task.user_id t <> user_id) ->
     tasks = []).
Proof.
  eexists. split; [reflexivity|]. unfold find_all. split; [|split].
  - intros t. rewrite filter_In, task_owner_is_iff. reflexivity.
  - reflexivity.
  - intros H. induction (tasks_collection s) as [|x c IH]; [reflexivity|].
    cbn. destruct (task_owner_is user_id x) eqn:E.
    + apply task_owner_is_iff in E. elim (H x (or_introl eq_refl) E).
    + apply IH. intros t Ht. apply H. now right.
Qed.

Lemma delete_task_absent task_id s :
  find_one (task_id_is task_id) (tasks_collection s) = None ->
  delete_task task_id s = (Raises (HTTPException 404 "Task not found"), s).
Proof.
  intros H. unfold delete_task, bind. rewrite (delete_one_absent _ _ H). cbn.
  unfold with_tasks. now rewrite db_eta.
Qed.

Lemma delete_task_present task_id s t :
  find_one (task_id_is task_id) (tasks_collection s) = Some t ->
  exists before after,
    tasks_collection s = (before ++ t :: after)%list /\
    (forall t', In t' before -> Task.id t' <> task_id) /\
    delete_task task_id s
    = (Returns "Task deleted successfully",
       Db (users_collection s) (before ++ after)
          (avatar_states_collection s)).
Proof.
  intros H. unfold delete_task, bind.
  destruct (delete_one_present _ _ _ H) as (before & after & Hc & Hb & E).
  exists before, after. split; [exact Hc|]. split.
  - intros t' Ht'. apply String.eqb_neq. now apply Hb.
  - now rewrite E.
Qed.

(** X5.  [delete_task] raises 404 "Task not found" and changes nothing
    when no stored task has the id; otherwise it removes the first stored
    task with that id and nothing else: the other tasks, the users (so
    any XP the task earned) and the avatar states stay. *)
Theorem delete_task_effect task_id s :
  (find_one (task_id_is task_id) (tasks_collection s) = None ->
   delete_task task_id s = (Raises (HTTPException 404 "Task not found"), s)) /\
  (forall t,
     find_one (task_id_is task_id) (tasks_collection s) = Some t ->
     exists before after,
       tasks_collection s = (before ++ t :: after)%list /\
       (forall t', In t' before -> Task.id t' <> task_id) /\
       delete_task task_id s
       = (Returns "Task deleted successfully",
          Db (users_collection s) (before ++ after)
             (avatar_states_collection s))).
Proof.
  split; [apply delete_task_absent | apply delete_task_present].
Qed.

Lemma delete_task_effect_scenario1 :
  delete_task "t1" db_scenario1
  = (Returns "Task deleted successfully", Db [ada 190 1] [] []) /\
  delete_task "t9" db_scenario1
  = (Raises (HTTPException 404 "Task not found"), db_scenario1).
Proof.
  split.
  - destruct (proj2 (delete_task_effect "t1" db_scenario1)
                (report_task "u1" 15) eq_refl)
      as (before & after & Hc & _ & E).
    rewrite E. clear E. cbn in Hc.
    destruct before as [|x before]; [now injection Hc as <-|].
    injection Hc as _ Hc. now destruct before.
  - exact (proj1 (delete_task_effect "t9" db_scenario1) eq_refl).
Defined.

(** X6.  When the stored tasks have distinct ids, a deleted task is
    gone: after [delete_task] no stored task has the id, so deleting it
    again and completing it both raise 404 "Task not found" and change
    nothing. *)
Theorem deleted_task_is_gone env task_id s :
  NoDup (map Task.id (tasks_collection s)) ->
  find_one (task_id_is task_id)
    (tasks_collection (snd (delete_task task_id s))) = None /\
  delete_task task_id (snd (delete_task task_id s))
  = (Raises (HTTPException 404 "Task not found"), snd (delete_task task_id s)) /\
  complete_task env (TaskComplete.Build task_id) (snd (delete_task task_id s))
  = (Raises (HTTPException 404 "Task not found"), snd (delete_task task_id s)).
Proof.
  intros Hnd.
  assert (Hgone : find_one (task_id_is task_id)
                    (tasks_collection (snd (delete_task task_id s))) = None).
  { destruct (find_one (task_id_is task_id) (tasks_collection s)) as [t|] eqn:E.
    - destruct (delete_task_present task_id s t E)
        as (before & after & Hc & Hb & ->).
      cbn. apply find_one_none_iff. intros d Hd.
      apply String.eqb_neq. apply in_app_or in Hd. destruct Hd as [Hd|Hd].
      + now apply Hb.
      + intros Hid. rewrite Hc, map_app in Hnd. cbn in Hnd.
        apply NoDup_remove_2 in Hnd. apply Hnd, in_or_app. right.
        apply (find_one_holds _ _ _) in E. apply task_id_is_iff in E.
        rewrite E, <- Hid. now apply in_map.
    - now rewrite (delete_task_absent task_id s E). }
  split; [exact Hgone|]. split.
  - exact (delete_task_absent task_id _ Hgone).
  - now apply complete_task_unknown.
Qed.

Lemma deleted_task_is_gone_scenario1 :
  complete_task env_up complete_t1 (snd (delete_task "t1" db_scenario1))
  = (Raises (HTTPException 404 "Task not found"),
     snd (delete_task "t1" db_scenario1)).
Proof.
  apply (deleted_task_is_gone env_up "t1" db_scenario1).
  repeat constructor. intros [].
Defined.

(** ** What each request does to the collections *)

Lemma update_one_present {Doc : Type} (q : Doc -> bool) set c d :
  find_one q c = Some d ->
  exists before after,
    c = (before ++ d :: after)%list /\
    (forall x, In x before -> q x = false) /\
    update_one q set c = (before ++ set d :: after)%list.
Proof.
  unfold find_one. induction c as [|x c IH]; simpl; [discriminate|].
  destruct (q x) eqn:Hx.
  - intros [= ->]. exists [], c. repeat split. intros y [].
  - intros H. destruct (IH H) as (before & after & -> & Hb & E).
    exists (x :: before), after. rewrite E. repeat split.
    intros y [<-|Hy]; [exact Hx | now apply Hb].
Qed.

(** The database after [complete_task], case by case. *)
Lemma complete_task_effect env tc s :
  complete_task env tc s
  = (Raises (HTTPException 404 "Task not found"), s) \/
  complete_task env tc s
  = (Raises (HTTPException 400 "Task already completed"), s) \/
  exists t,
    find_one (task_id_is (TaskComplete.task_id tc)) (tasks_collection s) = Some t /\
    Task.completed t = false /\
    ((find_one (user_id_is (Task.user_id t)) (users_collection s) = None /\
      complete_task env tc s
      = (Raises (HTTPException 404 "User not found"),
         Db (users_collection s)
            (update_one (task_id_is (TaskComplete.task_id tc))
               (set_completed (datetime_now env 0%nat)) (tasks_collection s))
            (avatar_states_collection s))) \/
     (exists u,
        find_one (user_id_is (Task.user_id t)) (users_collection s) = Some u /\
        fits_int64 (User.xp u + Task.xp_reward t) = false /\
        complete_task env tc s
        = (Raises OverflowError,
           Db (users_collection s)
              (update_one (task_id_is (TaskComplete.task_id tc))
                 (set_completed (datetime_now env 0%nat)) (tasks_collection s))
              (avatar_states_collection s))) \/
     exists u m r,
       find_one (user_id_is (Task.user_id t)) (users_collection s) = Some u /\
       fits_int64 (User.xp u + Task.xp_reward t) = true /\
       get_ai_coaching_message env (User.name u) (Task.title t)
         (Z.max 1 ((User.xp u + Task.xp_reward t) / 100)) (Task.xp_reward t)
       = Returns m /\
       ai_message r = m /\
       xp_gained r = Task.xp_reward t /\
       new_xp r = User.xp u + Task.xp_reward t /\
       new_level r = Z.max 1 ((User.xp u + Task.xp_reward t) / 100) /\
       level_up r = (new_level r >? User.level u) /\
       avatar_mood r = (if level_up r then "excited" else "happy") /\
       complete_task env tc s
       = (Returns r,
          Db (update_one (user_id_is (Task.user_id t)) (completion_user t u)
                (users_collection s))
             (update_one (task_id_is (TaskComplete.task_id tc))
                (set_completed (datetime_now env 0%nat)) (tasks_collection s))
             (avatar_states_collection s ++ [completion_state env t u m]))).
Proof.
  destruct (find_one (task_id_is (TaskComplete.task_id tc)) (tasks_collection s))
    as [t|] eqn:Ht.
  2:{ left. now apply complete_task_unknown. }
  destruct (Task.completed t) eqn:Hc.
  { right. left. now apply (complete_task_already env tc s t). }
  right. right. exists t. split; [reflexivity|]. split; [exact Hc|].
  destruct (find_one (user_id_is (Task.user_id t)) (users_collection s))
    as [u|] eqn:Hu.
  - destruct (fits_int64 (User.xp u + Task.xp_reward t)) eqn:Hf.
    2:{ right. left. exists u. split; [reflexivity|]. split; [exact Hf|].
        exact (complete_task_overflow env tc s t u Ht Hc Hu Hf). }
    right. right.
    destruct (complete_task_ok env tc s t u Ht Hc Hu Hf) as (m & Hm & E).
    exists u, m.
    exists {| message := "Task completed successfully!";
              xp_gained := Task.xp_reward t;
              new_xp := User.xp u + Task.xp_reward t;
              new_level := Z.max 1 ((User.xp u + Task.xp_reward t) / 100);
              level_up :=
                Z.max 1 ((User.xp u + Task.xp_reward t) / 100) >? User.level u;
              avatar_mood :=
                if Z.max 1 ((User.xp u + Task.xp_reward t) / 100)
                   >? User.level u
                then "excited" else "happy";
              ai_message := m |}.
    split; [reflexivity|]. split; [exact Hf|]. split; [exact Hm|].
    repeat (split; [reflexivity|]). exact E.
  - left. split; [reflexivity|].
    exact (complete_task_orphan env tc s t Ht Hc Hu).
Qed.

Lemma completion_user_id t u d : User.id (completion_user t u d) = User.id d.
Proof. reflexivity. Qed.

Lemma completion_user_identity t u d :
  identity (completion_user t u d) = identity d.
Proof. reflexivity. Qed.

Lemma set_completed_content now t :
  task_content (set_completed now t) = task_content t.
Proof. reflexivity. Qed.

Lemma create_task_effect env task_create user_id s :
  create_task env task_create user_id s
  = (Returns (Task.Build (uuid4 env) user_id (TaskCreate.title task_create)
                (TaskCreate.description task_create) false
                (TaskCreate.xp_reward task_create) (datetime_now env 0%nat)
                None),
     Db (users_collection s)
        (tasks_collection s ++
           [Task.Build (uuid4 env) user_id (TaskCreate.title task_create)
              (TaskCreate.description task_create) false
              (TaskCreate.xp_reward task_create) (datetime_now env 0%nat)
              None])
        (avatar_states_collection s)).
Proof. reflexivity. Qed.

Lemma delete_task_db task_id s :
  snd (delete_task task_id s) = s \/
  exists before t after,
    tasks_collection s = (before ++ t :: after)%list /\
    snd (delete_task task_id s)
    = Db (users_collection s) (before ++ after) (avatar_states_collection s).
Proof.
  destruct (find_one (task_id_is task_id) (tasks_collection s)) as [t|] eqn:E.
  - right. destruct (delete_task_present task_id s t E)
      as (before & after & Hc & _ & ->).
    now exists before, t, after.
  - left. now rewrite delete_task_absent.
Qed.

Lemma get_user_reads_only user_id s : snd (get_user user_id s) = s.
Proof.
  unfold get_user, bind, read.
  now destruct (find_one _ (users_collection s)).
Qed.

(** The database after any request, case by case. *)
Lemma serve_effect env req s :
  serve env req s = s \/
  (exists user,
     req = POST_users user /\
     serve env req s
     = Db (users_collection s ++ [user]) (tasks_collection s)
          (avatar_states_collection s)) \/
  (exists task,
     Task.id task = uuid4 env /\
     Task.completed task = false /\ Task.completed_at task = None /\
     (exists task_create user_id, req = POST_tasks task_create user_id) /\
     serve env req s
     = Db (users_collection s) (tasks_collection s ++ [task])
          (avatar_states_collection s)) \/
  (exists tc t,
     req = POST_tasks_complete tc /\
     find_one (task_id_is (TaskComplete.task_id tc)) (tasks_collection s) = Some t /\
     Task.completed t = false /\
     (((find_one (user_id_is (Task.user_id t)) (users_collection s) = None \/
        exists u,
          find_one (user_id_is (Task.user_id t)) (users_collection s) = Some u /\
          fits_int64 (User.xp u + Task.xp_reward t) = false) /\
       serve env req s
       = Db (users_collection s)
            (update_one (task_id_is (TaskComplete.task_id tc))
               (set_completed (datetime_now env 0%nat)) (tasks_collection s))
            (avatar_states_collection s)) \/
      exists u m,
        find_one (user_id_is (Task.user_id t)) (users_collection s) = Some u /\
        serve env req s
        = Db (update_one (user_id_is (Task.user_id t)) (completion_user t u)
                (users_collection s))
             (update_one (task_id_is (TaskComplete.task_id tc))
                (set_completed (datetime_now env 0%nat)) (tasks_collection s))
             (avatar_states_collection s ++ [completion_state env t u m]))) \/
  (exists before t after,
     tasks_collection s = (before ++ t :: after)%list /\
     serve env req s
     = Db (users_collection s) (before ++ after) (avatar_states_collection s)).
Proof.
  destruct req as [|user|uid|task_create uid|uid|tc|uid|tid]; cbn [serve].
  - now left.
  - right. left. now exists user.
  - left. apply get_user_reads_only.
  - right. right. left. rewrite create_task_effect. cbn [snd].
    exists (Task.Build (uuid4 env) uid (TaskCreate.title task_create)
              (TaskCreate.description task_create) false
              (TaskCreate.xp_reward task_create) (datetime_now env 0%nat)
              None).
    do 3 (split; [reflexivity|]). split; [|reflexivity].
    now exists task_create, uid.
  - now left.
  - destruct (complete_task_effect env tc s)
      as [E|[E|(t & Ht & Hc &
                [[Hu E]|[(u & Hu & Hf & E)
                        |(u & m & r & Hu & _ & _ & _ & _ & _ & _ & _ & _ & E)]])]];
      rewrite E; cbn [snd].
    + now left.
    + now left.
    + right. right. right. left. exists tc, t.
      split; [reflexivity|]. split; [exact Ht|]. split; [exact Hc|].
      left. split; [now left | reflexivity].
    + right. right. right. left. exists tc, t.
      split; [reflexivity|]. split; [exact Ht|]. split; [exact Hc|].
      left. split; [right; now exists u | reflexivity].
    + right. right. right. left. exists tc, t.
      split; [reflexivity|]. split; [exact Ht|]. split; [exact Hc|].
      right. now exists u, m.
  - left. apply get_avatar_state_reads_only.
  - destruct (delete_task_db tid s) as [->|(before & t & after & Hc & ->)].
    + now left.
    + right. right. right. right. now exists before, t, after.
Qed.

Lemma run_invariant (P : db -> Prop) :
  (forall env req s, P s -> P (serve env req s)) ->
  forall reqs s, P s -> P (run reqs s).
Proof.
  intros Hstep reqs. induction reqs as [|[env req] reqs IH]; intros s Hs.
  - exact Hs.
  - cbn [run]. apply IH, Hstep, Hs.
Qed.

(** ** What every sequence of requests keeps *)

(** X7.  Along any sequence of requests, [completed_at] is set exactly on
    the completed tasks: if that holds of every stored task before, it
    holds of every stored task after, and it holds in every database
    grown from the empty one. *)
Theorem completed_at_tracks_completed reqs :
  (forall s,
     Forall task_dated (tasks_collection s) ->
     Forall task_dated (tasks_collection (run reqs s))) /\
  Forall task_dated (tasks_collection (run reqs empty_db)).
Proof.
  assert (H : forall s,
             Forall task_dated (tasks_collection s) ->
             Forall task_dated (tasks_collection (run reqs s))).
  { apply (run_invariant (fun s => Forall task_dated (tasks_collection s))).
    intros env req s Hs.
    destruct (serve_effect env req s)
      as [->|[(user & _ & ->)|[(task & _ & Hc & Hat & _ & ->)
         |[(tc & t & _ & _ & _ & [[_ ->]|(u & m & _ & ->)])
          |(before & t & after & Hs' & ->)]]]];
      cbn [tasks_collection]; try exact Hs.
    - apply Forall_app. split; [exact Hs|]. constructor; [|constructor].
      unfold task_dated. now rewrite Hc, Hat.
    - apply update_one_Forall; [|exact Hs]. intros d _. reflexivity.
    - apply update_one_Forall; [|exact Hs]. intros d _. reflexivity.
    - rewrite Hs' in Hs. apply Forall_app in Hs. destruct Hs as [Hb Ha].
      apply Forall_app. split; [exact Hb|]. now inversion Ha. }
  split; [exact H|]. apply H. constructor.
Qed.

Lemma completed_at_tracks_completed_scenario1 :
  Forall task_dated
    (tasks_collection
       (run [(env_up, POST_tasks_complete complete_t1);
             (env_up, DELETE_tasks "t1")] db_scenario1)).
Proof.
  apply (proj1 (completed_at_tracks_completed _)).
  repeat constructor.
Defined.

Lemma state_shaped_run reqs s :
  Forall state_shaped (avatar_states_collection s) ->
  Forall state_shaped (avatar_states_collection (run reqs s)).
Proof.
  apply (run_invariant
           (fun s => Forall state_shaped (avatar_states_collection s))).
  clear. intros env req s Hs.
  destruct (serve_effect env req s)
    as [->|[(user & _ & ->)|[(task & _ & _ & _ & _ & ->)
       |[(tc & t & _ & _ & _ & [[_ ->]|(u & m & _ & ->)])
        |(before & t & after & _ & ->)]]]];
    cbn [avatar_states_collection]; try exact Hs.
  apply Forall_app. split; [exact Hs|]. constructor; [|constructor].
  unfold state_shaped, completion_state. cbn.
  split; [|discriminate].
  destruct (_ >? _); [left | right]; now split.
Qed.

(** X8.  Along any sequence of requests every stored avatar state keeps
    one of the two pairs [complete_task] writes, "excited" with
    "celebrate" or "happy" with "happy_bounce", and a message: no request
    stores any other mood or animation, and none ever stores "idle". *)
Theorem avatar_states_shaped reqs :
  (forall s,
     Forall state_shaped (avatar_states_collection s) ->
     Forall state_shaped (avatar_states_collection (run reqs s))) /\
  Forall state_shaped (avatar_states_collection (run reqs empty_db)) /\
  (forall a,
     In a (avatar_states_collection (run reqs empty_db)) ->
     AvatarState.animation a <> "idle").
Proof.
  split; [intros s; apply state_shaped_run|].
  assert (H0 : Forall state_shaped (avatar_states_collection (run reqs empty_db)))
    by (apply state_shaped_run; constructor).
  split; [exact H0|]. intros a Ha.
  rewrite Forall_forall in H0. destruct (H0 a Ha) as [[[_ E]|[_ E]] _];
    rewrite E; discriminate.
Qed.

Lemma avatar_states_shaped_scenario1 :
  Forall state_shaped
    (avatar_states_collection
       (run [(env_timeout, POST_tasks_complete complete_t1)] db_scenario1)).
Proof.
  apply (proj1 (avatar_states_shaped _)). constructor.
Defined.

Lemma serve_grows env req s :
  exists new_users new_states,
    map identity (users_collection (serve env req s))
    = (map identity (users_collection s) ++ new_users)%list /\
    avatar_states_collection (serve env req s)
    = (avatar_states_collection s ++ new_states)%list.
Proof.
  destruct (serve_effect env req s)
    as [->|[(user & _ & ->)|[(task & _ & _ & _ & _ & ->)
       |[(tc & t & _ & _ & _ & [[_ ->]|(u & m & _ & ->)])
        |(before & t & after & _ & ->)]]]];
    cbn [users_collection avatar_states_collection].
  - exists [], []. now rewrite !app_nil_r.
  - exists [identity user], []. now rewrite map_app, app_nil_r.
  - exists [], []. now rewrite !app_nil_r.
  - exists [], []. now rewrite !app_nil_r.
  - exists [], [completion_state env t u m]. rewrite app_nil_r. split.
    + apply update_one_map. intros d. apply completion_user_identity.
    + reflexivity.
  - exists [], []. now rewrite !app_nil_r.
Qed.

(** X9.  No sequence of requests removes or rewrites history: the stored
    users stay in place with their id, name, email and creation time,
    new users only being added behind them, and the stored avatar states
    stay in place unchanged, new ones only being added behind them. *)
Theorem history_only_grows reqs s :
  exists new_users new_states,
    map identity (users_collection (run reqs s))
    = (map identity (users_collection s) ++ new_users)%list /\
    avatar_states_collection (run reqs s)
    = (avatar_states_collection s ++ new_states)%list.
Proof.
  revert s. induction reqs as [|[env req] reqs IH]; intros s; cbn [run].
  - exists [], []. now rewrite !app_nil_r.
  - destruct (IH (serve env req s)) as (us2 & as2 & Hu2 & Ha2).
    destruct (serve_grows env req s) as (us1 & as1 & Hu1 & Ha1).
    exists (us1 ++ us2)%list, (as1 ++ as2)%list.
    now rewrite Hu2, Ha2, Hu1, Ha1, !app_assoc.
Qed.

Lemma stored_id_found i (c : list User.t) :
  In i (map User.id c) -> exists u, find_one (user_id_is i) c = Some u.
Proof.
  intros H. destruct (find_one (user_id_is i) c) as [u|] eqn:E; [now exists u|].
  apply in_map_iff in H. destruct H as (u & Hid & Hin).
  pose proof (proj1 (find_one_none_iff _ _) E u Hin) as Hq.
  unfold user_id_is in Hq. rewrite Hid, String.eqb_refl in Hq. discriminate.
Qed.

(** X10.  Every avatar state belongs to a stored user, along any sequence
    of requests: if each stored avatar state carries the id of a stored
    user before, so it does after; hence in a database grown from the
    empty one, [get_user] and [get_avatar_state] on the [user_id] of any
    stored avatar state return and do not raise 404. *)
Theorem avatar_states_have_owner reqs :
  (forall s,
     Forall (state_owned s) (avatar_states_collection s) ->
     Forall (state_owned (run reqs s)) (avatar_states_collection (run reqs s))) /\
  (forall a,
     In a (avatar_states_collection (run reqs empty_db)) ->
     (exists u,
        get_user (AvatarState.user_id a) (run reqs empty_db)
        = (Returns u, run reqs empty_db)) /\
     (exists v,
        get_avatar_state (AvatarState.user_id a) (run reqs empty_db)
        = (Returns v, run reqs empty_db))).
Proof.
  assert (H : forall s,
             Forall (state_owned s) (avatar_states_collection s) ->
             Forall (state_owned (run reqs s))
               (avatar_states_collection (run reqs s))).
  { apply (run_invariant
             (fun s => Forall (state_owned s) (avatar_states_collection s))).
    intros env req s Hs. unfold state_owned in *.
    destruct (serve_effect env req s)
      as [->|[(user & _ & ->)|[(task & _ & _ & _ & _ & ->)
         |[(tc & t & _ & _ & _ & [[_ ->]|(u & m & Hu & ->)])
          |(before & t & after & _ & ->)]]]];
      cbn [users_collection avatar_states_collection]; try exact Hs.
    - revert Hs. apply Forall_impl. intros a Ha.
      rewrite map_app. apply in_or_app. now left.
    - rewrite (update_one_map User.id)
        by (intros d; apply completion_user_id).
      apply Forall_app. split; [exact Hs|]. constructor; [|constructor].
      cbn. destruct (find_some _ _ Hu) as [Hin Hid].
      apply String.eqb_eq in Hid. rewrite <- Hid. now apply in_map. }
  split; [exact H|]. intros a Ha.
  assert (H0 : Forall (state_owned (run reqs empty_db))
                 (avatar_states_collection (run reqs empty_db)))
    by (apply H; constructor).
  rewrite Forall_forall in H0.
  destruct (stored_id_found _ _ (H0 a Ha)) as [u Hu]. split.
  - exists u. unfold get_user, bind, read. now rewrite Hu.
  - unfold get_avatar_state, bind, read. rewrite Hu.
    destruct (find_one_sorted_desc _ _ _); eexists; reflexivity.
Qed.

Lemma avatar_states_have_owner_scenario1 :
  Forall (state_owned (run [(env_up, POST_tasks_complete complete_t1)] db_scenario1))
    (avatar_states_collection
       (run [(env_up, POST_tasks_complete complete_t1)] db_scenario1)).
Proof.
  apply (proj1 (avatar_states_have_owner _)). constructor.
Defined.

(** ** At most one award per task *)

Section Settled.
Variable i : string.

Lemma settled_rejects env tc s :
  TaskComplete.task_id tc = i ->
  settled i (tasks_collection s) ->
  complete_task env tc s
  = (Raises (HTTPException 400 "Task already completed"), s) \/
  complete_task env tc s = (Raises (HTTPException 404 "Task not found"), s).
Proof.
  intros Hi Hs.
  destruct (find_one (task_id_is (TaskComplete.task_id tc)) (tasks_collection s))
    as [t|] eqn:E.
  - left. apply (complete_task_already env tc s t E).
    destruct (find_some _ _ E) as [Hin Hid]. apply task_id_is_iff in Hid.
    unfold settled in Hs. rewrite Forall_forall in Hs.
    apply (Hs t Hin). congruence.
  - right. now apply complete_task_unknown.
Qed.

(** With distinct ids, the first task with id [i] is the only one. *)
Lemma settled_by_first (set : Task.t -> Task.t) c t :
  NoDup (map Task.id c) ->
  find_one (task_id_is i) c = Some t ->
  Task.completed (set t) = true ->
  settled i (update_one (task_id_is i) set c).
Proof.
  intros Hnd Ht Hset.
  destruct (update_one_present _ set _ _ Ht) as (before & after & Hc & Hb & ->).
  pose proof (proj1 (task_id_is_iff _ _) (find_one_holds _ _ _ Ht)) as Hid.
  rewrite Hc, map_app in Hnd. cbn in Hnd. apply NoDup_remove_2 in Hnd.
  apply Forall_forall. intros x Hx Hxi. apply in_app_or in Hx.
  destruct Hx as [Hx|[<-|Hx]].
  - apply Hb in Hx. apply String.eqb_neq in Hx. now elim Hx.
  - exact Hset.
  - elim Hnd. apply in_or_app. right. rewrite Hid, <- Hxi. now apply in_map.
Qed.

Lemma settled_after_attempt env tc s :
  TaskComplete.task_id tc = i ->
  NoDup (map Task.id (tasks_collection s)) ->
  settled i (tasks_collection (snd (complete_task env tc s))).
Proof.
  intros Hi Hnd.
  destruct (find_one (task_id_is i) (tasks_collection s)) as [t|] eqn:Ht.
  - destruct (Task.completed t) eqn:Hc.
    + rewrite (complete_task_already env tc s t) by (now rewrite ?Hi).
      cbn [snd].
      pose proof (settled_by_first (fun d => d) _ t Hnd Ht Hc) as H.
      destruct (update_one_present _ (fun d : Task.t => d) _ _ Ht)
        as (before & after & Hs & _ & E).
      now rewrite E, <- Hs in H.
    + destruct (find_one (user_id_is (Task.user_id t)) (users_collection s))
        as [u|] eqn:Hu.
      * destruct (fits_int64 (User.xp u + Task.xp_reward t)) eqn:Hf.
        -- destruct (complete_task_ok env tc s t u) as (m & _ & ->);
             try (now rewrite ?Hi).
           cbn [snd tasks_collection]. rewrite Hi.
           now apply (settled_by_first _ _ t).
        -- rewrite (complete_task_overflow env tc s t u)
             by (now rewrite ?Hi).
           cbn [snd with_tasks tasks_collection]. rewrite Hi.
           now apply (settled_by_first _ _ t).
      * rewrite (complete_task_orphan env tc s t) by (now rewrite ?Hi).
        cbn [snd with_tasks tasks_collection]. rewrite Hi.
        now apply (settled_by_first _ _ t).
  - rewrite complete_task_unknown by (now rewrite Hi). cbn [snd].
    apply Forall_forall. intros x Hx Hxi.
    pose proof (proj1 (find_one_none_iff _ _) Ht x Hx) as Hq.
    apply String.eqb_neq in Hq. now elim Hq.
Qed.

Lemma settled_serve env req s :
  ~ creates_task i (env, req) ->
  settled i (tasks_collection s) ->
  settled i (tasks_collection (serve env req s)).
Proof.
  unfold settled. intros Hreq Hs.
  destruct (serve_effect env req s)
    as [->|[(user & _ & ->)|[(task & Hid & _ & _ & (tcr & uid & ->) & ->)
       |[(tc & t & _ & _ & _ & [[_ ->]|(u & m & _ & ->)])
        |(before & t & after & Hs' & ->)]]]];
    cbn [tasks_collection]; try exact Hs.
  - apply Forall_app. split; [exact Hs|]. constructor; [|constructor].
    intros Hi. elim Hreq. cbn. congruence.
  - apply update_one_Forall; [|exact Hs]. intros d _ _. reflexivity.
  - apply update_one_Forall; [|exact Hs]. intros d _ _. reflexivity.
  - rewrite Hs' in Hs. apply Forall_app in Hs. destruct Hs as [Hb Ha].
    apply Forall_app. split; [exact Hb|]. now inversion Ha.
Qed.

Lemma settled_run reqs s :
  (forall r, In r reqs -> ~ creates_task i r) ->
  settled i (tasks_collection s) ->
  settled i (tasks_collection (run reqs s)).
Proof.
  revert s. induction reqs as [|[env req] reqs IH]; intros s Hreqs Hs.
  - exact Hs.
  - cbn [run]. apply IH.
    + intros r Hr. apply Hreqs. now right.
    + apply settled_serve; [|exact Hs]. apply Hreqs. now left.
Qed.
End Settled.

(** X11.  At most one award per task.  When the stored tasks have
    distinct ids, then after one [complete_task] for a task id, whatever
    it answered, and after any further requests that create no task with
    that id, [complete_task] for the id raises 400 "Task already
    completed" or 404 "Task not found" and changes nothing. *)
Theorem completed_task_stays_rejected env env' tc reqs s :
  NoDup (map Task.id (tasks_collection s)) ->
  (forall r, In r reqs -> ~ creates_task (TaskComplete.task_id tc) r) ->
  complete_task env' tc (run reqs (snd (complete_task env tc s)))
  = (Raises (HTTPException 400 "Task already completed"),
     run reqs (snd (complete_task env tc s))) \/
  complete_task env' tc (run reqs (snd (complete_task env tc s)))
  = (Raises (HTTPException 404 "Task not found"),
     run reqs (snd (complete_task env tc s))).
Proof.
  intros Hnd Hreqs.
  apply (settled_rejects (TaskComplete.task_id tc)); [reflexivity|].
  apply settled_run; [exact Hreqs|].
  now apply settled_after_attempt.
Qed.

Lemma completed_task_stays_rejected_scenario1 :
  complete_task env_timeout complete_t1
    (run [(env_up, POST_tasks (TaskCreate.default "Plan week" None) "u1");
          (env_up, GET_avatar_state "u1")]
       (snd (complete_task env_up complete_t1 db_scenario1)))
  = (Raises (HTTPException 400 "Task already completed"),
     run [(env_up, POST_tasks (TaskCreate.default "Plan week" None) "u1");
          (env_up, GET_avatar_state "u1")]
       (snd (complete_task env_up complete_t1 db_scenario1))).
Proof.
  destruct (completed_task_stays_rejected env_up env_timeout complete_t1
              [(env_up, POST_tasks (TaskCreate.default "Plan week" None) "u1");
               (env_up, GET_avatar_state "u1")] db_scenario1) as [E|E].
  - repeat constructor. intros [].
  - intros r [<-|[<-|[]]]; cbn; [discriminate | tauto].
  - exact E.
  - vm_compute in E. discriminate.
Defined.

(** ** Creating, completing and reading back *)




Lemma first_desc_last {Doc : Type} (key : Doc -> Z) c a :
  (forall x, In x c -> key x < key a) ->
  first_desc key (c ++ [a]) = Some a.
Proof.
  induction c as [|x c IH]; intros H; cbn; [reflexivity|].
  rewrite IH by (intros y Hy; apply H; now right).
  destruct (Z.ltb_spec (key x) (key a)) as [_|Hge]; [reflexivity|].
  specialize (H x (or_introl eq_refl)). lia.
Qed.

(** X13.  What a successful completion wrote can be read back.  When the
    second clock reading of the request is later than the timestamps of
    the owner's stored avatar states, [get_avatar_state] for the owner
    returns the completion's mood, animation, message, new XP and new
    level; and [get_user] returns the owner with the new XP, level and
    mood and with id, name, email and creation time as before. *)
Theorem complete_task_then_read_back env tc s t u r s' :
  find_one (task_id_is (TaskComplete.task_id tc)) (tasks_collection s) = Some t ->
  find_one (user_id_is (Task.user_id t)) (users_collection s) = Some u ->
  complete_task env tc s = (Returns r, s') ->
  (forall a,
     In a (avatar_states_collection s) ->
     AvatarState.user_id a = Task.user_id t ->
     AvatarState.timestamp a < datetime_now env 1%nat) ->
  get_avatar_state (Task.user_id t) s'
  = (Returns {| view_mood := avatar_mood r;
                view_animation :=
                  if level_up r then "celebrate" else "happy_bounce";
                view_message := Some (ai_message r);
                view_xp := new_xp r;
                view_level := new_level r |}, s') /\
  exists u',
    get_user (Task.user_id t) s' = (Returns u', s') /\
    User.xp u' = new_xp r /\
    User.level u' = new_level r /\
    User.avatar_mood u' = avatar_mood r /\
    identity u' = identity u.
Proof.
  intros Ht Hu Hr Hclock.
  pose proof (complete_task_returns_fresh env tc s t r s' Ht Hr) as Hc.
  pose proof (complete_task_returns_fits env tc s t u r s' Ht Hu Hr) as Hf.
  destruct (complete_task_ok env tc s t u Ht Hc Hu Hf) as (m & _ & E).
  rewrite E in Hr. injection Hr as <- <-. clear E.
  match goal with
  | |- context [update_one (user_id_is _) ?f (users_collection s)] =>
      assert (Hu' : find_one (user_id_is (Task.user_id t))
                      (update_one (user_id_is (Task.user_id t)) f
                         (users_collection s)) = Some (f u))
        by (apply find_one_update_one_hit;
            [exact Hu
            | rewrite user_id_is_set_progress;
              exact (find_one_holds _ _ _ Hu)])
  end.
  split.
  - unfold get_avatar_state, bind, read. cbn [users_collection].
    rewrite Hu'. cbn [avatar_states_collection].
    unfold find_one_sorted_desc, find_all. rewrite filter_app. cbn [filter].
    unfold state_owner_is at 2. cbn [AvatarState.user_id].
    rewrite String.eqb_refl, first_desc_last; [reflexivity|].
    intros x Hx. apply filter_In in Hx. destruct Hx as [Hx Ho].
    apply Hclock; [exact Hx | now apply state_owner_is_iff].
  - eexists. split.
    + unfold get_user, bind, read. cbn [users_collection]. now rewrite Hu'.
    + repeat split.
Qed.

Lemma complete_task_then_read_back_scenario1 :
  exists r s',
    complete_task env_up complete_t1 db_scenario1 = (Returns r, s') /\
    get_avatar_state "u1" s'
    = (Returns {| view_mood := "excited";
                  view_animation := "celebrate";
                  view_message := Some "Woohoo!";
                  view_xp := 205;
                  view_level := 2 |}, s').
Proof.
  destruct (complete_task env_up complete_t1 db_scenario1)
    as [[r|e] s'] eqn:E; [|vm_compute in E; discriminate].
  exists r, s'. split; [reflexivity|].
  destruct (complete_task_then_read_back env_up complete_t1 db_scenario1
              (report_task "u1" 15) (ada 190 1) r s' eq_refl eq_refl E)
    as [H _].
  - intros a [].
  - cbn [Task.user_id report_task] in H. rewrite H.
    vm_compute in E. injection E as <- <-. reflexivity.
Defined.

(** ** Levels *)

Lemma level_step (old new : Z) :
  (Z.max 1 (new / 100) >? Z.max 1 (old / 100)) = true <->
  200 <= new /\ old / 100 < new / 100.
Proof.
  rewrite Z.gtb_ltb, Z.ltb_lt.
  pose proof (Z.div_mod new 100 ltac:(lia)) as Hn.
  pose proof (Z.mod_pos_bound new 100 ltac:(lia)) as Hnb.
  generalize dependent (new mod 100). generalize dependent (new / 100).
  generalize (old / 100). intros; lia.
Qed.

(** X14.  For a user whose stored level is [max(1, xp // 100)], a
    successful completion reports a level-up exactly when the new XP is
    at least 200 and lies in a later hundred than the old XP: level 1
    covers 0 to 199 XP, so reaching 100 XP is no level-up.  The new level
    is at least 1; a non-negative reward lowers neither XP nor level, and
    a reward of zero or less never gives a level-up. *)
Theorem level_up_iff_next_hundred env tc s t u r s' :
  find_one (task_id_is (TaskComplete.task_id tc)) (tasks_collection s) = Some t ->
  find_one (user_id_is (Task.user_id t)) (users_collection s) = Some u ->
  complete_task env tc s = (Returns r, s') ->
  level_consistent u ->
  (level_up r = true <->
   200 <= new_xp r /\ User.xp u / 100 < new_xp r / 100) /\
  (new_xp r < 200 -> level_up r = false /\ new_level r = 1) /\
  1 <= new_level r /\
  (0 <= Task.xp_reward t ->
   User.xp u <= new_xp r /\ User.level u <= new_level r) /\
  (Task.xp_reward t <= 0 -> level_up r = false).
Proof.
  intros Ht Hu Hr Hl.
  pose proof (complete_task_returns_fresh env tc s t r s' Ht Hr) as Hc.
  pose proof (complete_task_returns_fits env tc s t u r s' Ht Hu Hr) as Hf.
  destruct (complete_task_ok env tc s t u Ht Hc Hu Hf) as (m & _ & E).
  rewrite E in Hr. injection Hr as <- <-. clear E. cbn.
  unfold level_consistent in Hl. rewrite Hl.
  pose proof (level_step (User.xp u) (User.xp u + Task.xp_reward t)) as Hstep.
  split; [exact Hstep|]. split; [|split; [lia|split]].
  - intros Hlow. split.
    + destruct (_ >? _); [|reflexivity].
      destruct (proj1 Hstep eq_refl). lia.
    + assert ((User.xp u + Task.xp_reward t) / 100 < 2)
        by (apply Z.div_lt_upper_bound; lia).
      lia.
  - intros Hpos. split; [lia|].
    assert (User.xp u / 100 <= (User.xp u + Task.xp_reward t) / 100)
      by (apply Z.div_le_mono; lia).
    lia.
  - intros Hneg. destruct (_ >? _); [|reflexivity].
    destruct (proj1 Hstep eq_refl) as [_ Hlt].
    assert ((User.xp u + Task.xp_reward t) / 100 <= User.xp u / 100)
      by (apply Z.div_le_mono; lia).
    lia.
Qed.

Lemma level_up_iff_next_hundred_scenario1 :
  exists r s',
    complete_task env_up complete_t1 db_scenario1 = (Returns r, s') /\
    (level_up r = true <-> 200 <= new_xp r /\ 190 / 100 < new_xp r / 100).
Proof.
  destruct (complete_task env_up complete_t1 db_scenario1)
    as [[r|e] s'] eqn:E; [|vm_compute in E; discriminate].
  exists r, s'. split; [reflexivity|].
  exact (proj1 (level_up_iff_next_hundred env_up complete_t1 db_scenario1
                  (report_task "u1" 15) (ada 190 1) r s' eq_refl eq_refl E
                  eq_refl)).
Defined.

(** ** The coaching call *)

Lemma contains_skip (p a s : string) :
  contains p s = true -> contains p (a ++ s) = true.
Proof.
  intros H. induction a as [|c a IH]; cbn [append contains]; [exact H|].
  rewrite IH. apply orb_true_r.
Qed.

(** X15.  With a non-empty key, [get_ai_coaching_message] asks the
    service once, under that key and the session "avatar_coaching_<user
    name>", with a prompt that contains the task title, the XP gained and
    the level; what the service returns is returned as it is, an empty
    reply included.  With an empty key no reply of the service is used:
    the fixed sentence is returned. *)
Theorem coaching_reply_verbatim env user_name task_title lvl xp :
  (forall emergent_key reply,
     EMERGENT_LLM_KEY env = Some emergent_key ->
     emergent_key <> "" ->
     send_message env (coaching_chat emergent_key user_name)
       (coaching_prompt task_title xp lvl) = Returns reply ->
     get_ai_coaching_message env user_name task_title lvl xp = Returns reply) /\
  (EMERGENT_LLM_KEY env = Some "" ->
   get_ai_coaching_message env user_name task_title lvl xp
   = Returns no_key_message) /\
  (forall emergent_key,
     api_key (coaching_chat emergent_key user_name) = emergent_key /\
     session_id (coaching_chat emergent_key user_name)
     = "avatar_coaching_" ++ user_name /\
     model (coaching_chat emergent_key user_name) = ("openai", "gpt-4o-mini") /\
     contains user_name (system_message (coaching_chat emergent_key user_name))
     = true) /\
  contains task_title (text (coaching_prompt task_title xp lvl)) = true /\
  contains (str xp) (text (coaching_prompt task_title xp lvl)) = true /\
  contains (str lvl) (text (coaching_prompt task_title xp lvl)) = true.
Proof.
  split; [|split; [|split; [|split; [|split]]]].
  - intros k reply Hk Hne Hs. unfold get_ai_coaching_message. rewrite Hk.
    destruct k as [|c k]; [now elim Hne|]. cbn [truthy negb].
    now rewrite Hs.
  - intros Hk. unfold get_ai_coaching_message. now rewrite Hk.
  - intros k. repeat split. cbn [coaching_chat system_message].
    apply contains_app.
  - cbn [coaching_prompt text]. apply contains_app.
  - cbn [coaching_prompt text]. do 2 apply contains_skip. apply contains_app.
  - cbn [coaching_prompt text]. do 4 apply contains_skip. apply contains_app.
Qed.

Lemma coaching_reply_verbatim_up :
  get_ai_coaching_message env_up "Ada" "Write report" 2 15 = Returns "Woohoo!".
Proof.
  apply (proj1 (coaching_reply_verbatim env_up "Ada" "Write report" 2 15)
           "sk-test" "Woohoo!" eq_refl); [discriminate | reflexivity].
Defined.

(** X16.  The key, the service's reply and the service's failure decide
    only the message.  Two [complete_task] requests that differ in them
    (and read the same clock) leave the same users and tasks, fail with
    the same exception if either fails, and return the same XP gained,
    new XP, new level, level-up flag and mood. *)
Theorem coaching_decides_only_message env env' tc s :
  datetime_now env 0%nat = datetime_now env' 0%nat ->
  users_collection (snd (complete_task env tc s))
  = users_collection (snd (complete_task env' tc s)) /\
  tasks_collection (snd (complete_task env tc s))
  = tasks_collection (snd (complete_task env' tc s)) /\
  (forall e,
     fst (complete_task env tc s) = Raises e <->
     fst (complete_task env' tc s) = Raises e) /\
  (forall r r',
     fst (complete_task env tc s) = Returns r ->
     fst (complete_task env' tc s) = Returns r' ->
     xp_gained r = xp_gained r' /\ new_xp r = new_xp r' /\
     new_level r = new_level r' /\ level_up r = level_up r' /\
     avatar_mood r = avatar_mood r').
Proof.
  intros Hclock.
  destruct (find_one (task_id_is (TaskComplete.task_id tc)) (tasks_collection s))
    as [t|] eqn:Ht.
  2:{ rewrite !complete_task_unknown by exact Ht. cbn.
      repeat split; try tauto; discriminate. }
  destruct (Task.completed t) eqn:Hc.
  { rewrite !(complete_task_already _ tc s t Ht Hc). cbn.
    repeat split; try tauto; discriminate. }
  destruct (find_one (user_id_is (Task.user_id t)) (users_collection s))
    as [u|] eqn:Hu.
  - destruct (fits_int64 (User.xp u + Task.xp_reward t)) eqn:Hf.
    + destruct (complete_task_ok env tc s t u Ht Hc Hu Hf) as (m & _ & ->).
      destruct (complete_task_ok env' tc s t u Ht Hc Hu Hf) as (m' & _ & ->).
      cbn. rewrite Hclock. split; [reflexivity|]. split; [reflexivity|].
      split.
      * intros e. split; discriminate.
      * intros r r' [= <-] [= <-]. cbn. repeat split.
    + rewrite !(complete_task_overflow _ tc s t u Ht Hc Hu Hf). cbn.
      rewrite Hclock. repeat split; try tauto; discriminate.
  - rewrite !(complete_task_orphan _ tc s t Ht Hc Hu). cbn. rewrite Hclock.
    repeat split; try tauto; discriminate.
Qed.

Lemma coaching_decides_only_message_scenario1 :
  users_collection (snd (complete_task env_no_key complete_t1 db_scenario1))
  = users_collection (snd (complete_task env_timeout complete_t1 db_scenario1)).
Proof.
  exact (proj1 (coaching_decides_only_message env_no_key env_timeout
                  complete_t1 db_scenario1 eq_refl)).
Defined.

(** ** One task at a time *)

(** X17.  A [complete_task] that finds its task open, whether or not it
    then finds the owner, rewrites that one stored task and no other: the
    first task with the id gets [completed] and [completed_at] set, every
    task keeps its place, id, owner, title, description, reward and
    creation time, and the number of completed tasks grows by one. *)
Theorem complete_task_marks_one_task env tc s t :
  find_one (task_id_is (TaskComplete.task_id tc)) (tasks_collection s) = Some t ->
  Task.completed t = false ->
  (exists before after,
     tasks_collection s = (before ++ t :: after)%list /\
     (forall x, In x before -> Task.id x <> TaskComplete.task_id tc) /\
     tasks_collection (snd (complete_task env tc s))
     = (before ++ set_completed (datetime_now env 0%nat) t :: after)%list) /\
  map task_content (tasks_collection (snd (complete_task env tc s)))
  = map task_content (tasks_collection s) /\
  completed_count (tasks_collection (snd (complete_task env tc s)))
  = S (completed_count (tasks_collection s)).
Proof.
  intros Ht Hc.
  assert (E : tasks_collection (snd (complete_task env tc s))
              = update_one (task_id_is (TaskComplete.task_id tc))
                  (set_completed (datetime_now env 0%nat)) (tasks_collection s)).
  { destruct (find_one (user_id_is (Task.user_id t)) (users_collection s))
      as [u|] eqn:Hu.
    - destruct (fits_int64 (User.xp u + Task.xp_reward t)) eqn:Hf.
      + now destruct (complete_task_ok env tc s t u Ht Hc Hu Hf)
          as (m & _ & ->).
      + now rewrite (complete_task_overflow env tc s t u Ht Hc Hu Hf).
    - now rewrite (complete_task_orphan env tc s t Ht Hc Hu). }
  rewrite E.
  destruct (update_one_present _ (set_completed (datetime_now env 0%nat))
              _ _ Ht) as (before & after & Hs & Hb & ->).
  split; [|split].
  - exists before, after. split; [exact Hs|]. split; [|reflexivity].
    intros x Hx. apply String.eqb_neq. now apply Hb.
  - rewrite Hs, !map_app. reflexivity.
  - unfold completed_count. rewrite Hs, !filter_app, !length_app. cbn.
    rewrite Hc. cbn. lia.
Qed.

Lemma complete_task_marks_one_task_orphan :
  completed_count
    (tasks_collection (snd (complete_task env_up complete_t1 db_orphan)))
  = 1%nat.
Proof.
  exact (proj2 (proj2 (complete_task_marks_one_task env_up complete_t1
                         db_orphan (report_task "ghost" 10) eq_refl eq_refl))).
Defined.

(** What a successful completion leaves for the next one to find. *)
Lemma complete_task_leaves env tc s t u :
  find_one (task_id_is (TaskComplete.task_id tc)) (tasks_collection s) = Some t ->
  Task.completed t = false ->
  find_one (user_id_is (Task.user_id t)) (users_collection s) = Some u ->
  fits_int64 (User.xp u + Task.xp_reward t) = true ->
  exists r s',
    complete_task env tc s = (Returns r, s') /\
    new_xp r = User.xp u + Task.xp_reward t /\
    find_one (user_id_is (Task.user_id t)) (users_collection s')
    = Some (completion_user t u u) /\
    (forall i,
       i <> TaskComplete.task_id tc ->
       find_one (task_id_is i) (tasks_collection s')
       = find_one (task_id_is i) (tasks_collection s)).
Proof.
  intros Ht Hc Hu Hf.
  destruct (complete_task_ok env tc s t u Ht Hc Hu Hf) as (m & _ & E).
  eexists. eexists. split; [exact E|]. split; [reflexivity|].
  cbn [users_collection tasks_collection]. split.
  - apply (find_one_update_one_hit _ _ _ _ Hu).
    rewrite user_id_is_set_progress. exact (find_one_holds _ _ _ Hu).
  - intros i Hi. apply find_one_update_one_miss.
    + intros d Hd. apply String.eqb_eq in Hd. apply String.eqb_neq.
      congruence.
    + intros d. apply task_id_is_set_completed.
Qed.

(** X18.  XP adds up.  Two open tasks with different ids of one stored
    user, when the user's XP plus either reward and plus both rewards
    fits the store's signed 8-byte integer, can be completed one after
    the other in either order: both completions succeed, and in both
    orders the stored user ends with the old XP plus both rewards and
    with level [max(1, xp // 100)] of that sum. *)
Theorem two_completions_add_up env1 env2 tc1 tc2 s t1 t2 u :
  TaskComplete.task_id tc1 <> TaskComplete.task_id tc2 ->
  find_one (task_id_is (TaskComplete.task_id tc1)) (tasks_collection s) = Some t1 ->
  find_one (task_id_is (TaskComplete.task_id tc2)) (tasks_collection s) = Some t2 ->
  Task.completed t1 = false ->
  Task.completed t2 = false ->
  Task.user_id t1 = Task.user_id t2 ->
  find_one (user_id_is (Task.user_id t1)) (users_collection s) = Some u ->
  fits_int64 (User.xp u + Task.xp_reward t1) = true ->
  fits_int64 (User.xp u + Task.xp_reward t2) = true ->
  fits_int64 (User.xp u + Task.xp_reward t1 + Task.xp_reward t2) = true ->
  forall first second,
    (first = tc1 /\ second = tc2) \/ (first = tc2 /\ second = tc1) ->
    exists r s1 r' s2 u',
      complete_task env1 first s = (Returns r, s1) /\
      complete_task env2 second s1 = (Returns r', s2) /\
      find_one (user_id_is (Task.user_id t1)) (users_collection s2) = Some u' /\
      User.xp u' = User.xp u + Task.xp_reward t1 + Task.xp_reward t2 /\
      User.level u'
      = Z.max 1 ((User.xp u + Task.xp_reward t1 + Task.xp_reward t2) / 100) /\
      new_xp r' = User.xp u'.
Proof.
  intros Hne Ht1 Ht2 Hc1 Hc2 Hown Hu Hf1 Hf2 Hf12 first second Horder.
  assert (Hgen : forall tca tcb ta tb,
             TaskComplete.task_id tca <> TaskComplete.task_id tcb ->
             find_one (task_id_is (TaskComplete.task_id tca)) (tasks_collection s)
             = Some ta ->
             find_one (task_id_is (TaskComplete.task_id tcb)) (tasks_collection s)
             = Some tb ->
             Task.completed ta = false -> Task.completed tb = false ->
             Task.user_id ta = Task.user_id t1 ->
             Task.user_id tb = Task.user_id t1 ->
             fits_int64 (User.xp u + Task.xp_reward ta) = true ->
             fits_int64 (User.xp u + Task.xp_reward ta + Task.xp_reward tb)
             = true ->
             exists r s1 r' s2 u',
               complete_task env1 tca s = (Returns r, s1) /\
               complete_task env2 tcb s1 = (Returns r', s2) /\
               find_one (user_id_is (Task.user_id t1)) (users_collection s2)
               = Some u' /\
               User.xp u' = User.xp u + Task.xp_reward ta + Task.xp_reward tb /\
               User.level u'
               = Z.max 1 ((User.xp u + Task.xp_reward ta + Task.xp_reward tb)
                          / 100) /\
               new_xp r' = User.xp u').
  { intros tca tcb ta tb Hab Hta Htb Hca Hcb Hoa Hob Hfa Hfab.
    rewrite <- Hoa in Hu.
    destruct (complete_task_leaves env1 tca s ta u Hta Hca Hu Hfa)
      as (r & s1 & E1 & _ & Hu1 & Hkeep).
    rewrite <- (Hkeep _ (not_eq_sym Hab)) in Htb.
    rewrite Hoa, <- Hob in Hu1.
    destruct (complete_task_leaves env2 tcb s1 tb _ Htb Hcb Hu1 Hfab)
      as (r' & s2 & E2 & Hxp & Hu2 & _).
    exists r, s1, r', s2. eexists.
    split; [exact E1|]. split; [exact E2|].
    rewrite <- Hob. split; [exact Hu2|]. cbn. rewrite Hxp. cbn.
    repeat split. }
  destruct Horder as [[-> ->]|[-> ->]].
  - apply (Hgen tc1 tc2 t1 t2); auto.
  - replace (User.xp u + Task.xp_reward t1 + Task.xp_reward t2)
      with (User.xp u + Task.xp_reward t2 + Task.xp_reward t1) in Hf12 by lia.
    destruct (Hgen tc2 tc1 t2 t1)
      as (r & s1 & r' & s2 & u' & H1 & H2 & H3 & H4 & H5 & H6); auto.
    exists r, s1, r', s2, u'. repeat (split; [assumption|]).
    split; [lia|]. split; [|assumption].
    rewrite H5. f_equal. f_equal. lia.
Qed.

Lemma two_completions_add_up_two_tasks :
  exists r s1 r' s2 u',
    complete_task env_up complete_t2 db_two_tasks = (Returns r, s1) /\
    complete_task env_timeout complete_t1 s1 = (Returns r', s2) /\
    find_one (user_id_is "u1") (users_collection s2) = Some u' /\
    User.xp u' = 190 + 15 + 95 /\
    User.level u' = Z.max 1 ((190 + 15 + 95) / 100) /\
    new_xp r' = User.xp u'.
Proof.
  refine (two_completions_add_up env_up env_timeout complete_t1 complete_t2
            db_two_tasks (report_task "u1" 15) call_task (ada 190 1)
            _ eq_refl eq_refl eq_refl eq_refl eq_refl eq_refl
            eq_refl eq_refl eq_refl
            complete_t2 complete_t1 (or_intror (conj eq_refl eq_refl))).
  discriminate.
Defined.

(** ** Idle avatars *)

(** X19.  In a database grown from the empty one by any requests,
    [get_avatar_state] shows the animation "idle" exactly for the stored
    users without an avatar state, that is, for whom no completion has
    succeeded yet. *)
Theorem idle_iff_no_avatar_state reqs user_id v :
  fst (get_avatar_state user_id (run reqs empty_db)) = Returns v ->
  (view_animation v = "idle" <->
   forall a,
     In a (avatar_states_collection (run reqs empty_db)) ->
     AvatarState.user_id a <> user_id).
Proof.
  pose proof (state_shaped_run reqs empty_db (Forall_nil _)) as Hshape.
  rewrite Forall_forall in Hshape.
  unfold get_avatar_state, bind, read.
  destruct (find_one (user_id_is user_id) (users_collection (run reqs empty_db)))
    as [u|]; [|discriminate].
  unfold find_one_sorted_desc, find_all.
  destruct (first_desc AvatarState.timestamp
              (filter (state_owner_is user_id)
                 (avatar_states_collection (run reqs empty_db))))
    as [latest|] eqn:E; cbn; intros [= <-]; cbn.
  - destruct (first_desc_some _ _ _ E) as [Hin _].
    apply filter_In in Hin. destruct Hin as [Hin Hown].
    apply state_owner_is_iff in Hown. split.
    + intros Hidle. destruct (Hshape latest Hin) as [[[_ A]|[_ A]] _];
        rewrite A in Hidle; discriminate.
    + intros Hnone. elim (Hnone latest Hin Hown).
  - apply first_desc_none in E. split; [|reflexivity].
    intros _ a Ha Hown.
    assert (Hf : In a (filter (state_owner_is user_id)
                         (avatar_states_collection (run reqs empty_db)))).
    { apply filter_In. split; [exact Ha | now apply state_owner_is_iff]. }
    rewrite E in Hf. destruct Hf.
Qed.

Lemma idle_iff_no_avatar_state_bo :
  view_animation
    {| view_mood := "neutral";
       view_animation := "idle";
       view_message := Some (greeting "Bo");
       view_xp := 0;
       view_level := 1 |} = "idle" <->
  (forall a,
     In a (avatar_states_collection (run [(env_up, POST_users bo)] empty_db)) ->
     AvatarState.user_id a <> "u2").
Proof.
  exact (idle_iff_no_avatar_state [(env_up, POST_users bo)] "u2" _ eq_refl).
Defined.

(** ** XP is never lost *)

Lemma no_loss_refl (c : list User.t) : Forall2 no_loss c c.
Proof.
  induction c as [|u c IH]; constructor; [|exact IH].
  split; [reflexivity | lia].
Qed.

Lemma no_loss_trans (a b c : list User.t) :
  Forall2 no_loss a b -> Forall2 no_loss b c -> Forall2 no_loss a c.
Proof.
  intros Hab. revert c. induction Hab as [|x y a b [Hi Hx] _ IH]; intros c Hbc.
  - inversion Hbc. constructor.
  - inversion Hbc as [|y' z b' c' [Hi' Hx'] Hbc']; subst.
    constructor; [|now apply IH]. split; [congruence | lia].
Qed.

Lemma serve_no_loss env req s :
  Forall (fun t => 0 <= Task.xp_reward t) (tasks_collection s) ->
  posts_no_penalty (env, req) ->
  Forall (fun t => 0 <= Task.xp_reward t) (tasks_collection (serve env req s)) /\
  exists kept new_users,
    users_collection (serve env req s) = (kept ++ new_users)%list /\
    Forall2 no_loss (users_collection s) kept.
Proof.
  intros Hs Hreq.
  destruct (serve_effect env req s)
    as [->|[(user & _ & ->)|[(task & _ & _ & _ & (tcr & uid & Hr) & E)
       |[(tc & t & _ & Ht & _ & [[_ ->]|(u & m & Hu & ->)])
        |(before & t & after & Hs' & ->)]]]];
    cbn [tasks_collection users_collection].
  - split; [exact Hs|]. exists (users_collection s), [].
    rewrite app_nil_r. split; [reflexivity | apply no_loss_refl].
  - split; [exact Hs|]. exists (users_collection s), [user].
    split; [reflexivity | apply no_loss_refl].
  - subst req. cbn [serve] in E |- *. rewrite create_task_effect. cbn. split.
    + apply Forall_app. split; [exact Hs|]. constructor; [|constructor].
      exact Hreq.
    + exists (users_collection s), []. rewrite app_nil_r.
      split; [reflexivity | apply no_loss_refl].
  - split.
    + apply (Forall_map Task.xp_reward (fun z => 0 <= z)).
      rewrite update_one_map by reflexivity.
      now apply (Forall_map Task.xp_reward (fun z => 0 <= z)).
    + exists (users_collection s), []. rewrite app_nil_r.
      split; [reflexivity | apply no_loss_refl].
  - split.
    + apply (Forall_map Task.xp_reward (fun z => 0 <= z)).
      rewrite update_one_map by reflexivity.
      now apply (Forall_map Task.xp_reward (fun z => 0 <= z)).
    + destruct (update_one_present _ (completion_user t u) _ _ Hu)
        as (before & after & Hc & _ & ->).
      exists (before ++ completion_user t u u :: after)%list, [].
      rewrite app_nil_r. split; [reflexivity|]. rewrite Hc.
      apply Forall2_app; [apply no_loss_refl|].
      constructor; [|apply no_loss_refl].
      split; [reflexivity|]. cbn.
      rewrite Forall_forall in Hs.
      pose proof (Hs t (proj1 (find_some _ _ Ht))). lia.
  - split.
    + rewrite Hs' in Hs. apply Forall_app in Hs. destruct Hs as [Hb Ha].
      apply Forall_app. split; [exact Hb|]. now inversion Ha.
    + exists (users_collection s), []. rewrite app_nil_r.
      split; [reflexivity | apply no_loss_refl].
Qed.

(** X20.  XP is never lost while rewards are non-negative.  If no stored
    task and no posted task has a negative [xp_reward], then after any
    sequence of requests every user stored before is still stored, in
    the same place and with the same id, name, email and creation time,
    with at least the XP it had. *)
Theorem xp_never_lost reqs s :
  Forall (fun t => 0 <= Task.xp_reward t) (tasks_collection s) ->
  (forall r, In r reqs -> posts_no_penalty r) ->
  exists kept new_users,
    users_collection (run reqs s) = (kept ++ new_users)%list /\
    Forall2 no_loss (users_collection s) kept.
Proof.
  revert s. induction reqs as [|[env req] reqs IH]; intros s Hs Hreqs;
    cbn [run].
  - exists (users_collection s), []. rewrite app_nil_r.
    split; [reflexivity | apply no_loss_refl].
  - destruct (serve_no_loss env req s Hs (Hreqs _ (or_introl eq_refl)))
      as (Hs1 & k1 & n1 & E1 & H1).
    destruct (IH (serve env req s) Hs1 (fun r Hr => Hreqs r (or_intror Hr)))
      as (k2 & n2 & E2 & H2).
    rewrite E1 in H2. apply Forall2_app_inv_l in H2.
    destruct H2 as (k & n & Hk & _ & ->).
    exists k, (n ++ n2)%list. split.
    + now rewrite E2, app_assoc.
    + exact (no_loss_trans _ _ _ H1 Hk).
Qed.

Lemma xp_never_lost_two_tasks :
  exists kept new_users,
    users_collection
      (run [(env_up, POST_tasks_complete complete_t2); (env_up, POST_users bo)]
         db_two_tasks)
    = (kept ++ new_users)%list /\
    Forall2 no_loss [ada 190 1] kept.
Proof.
  apply (xp_never_lost
           [(env_up, POST_tasks_complete complete_t2); (env_up, POST_users bo)]
           db_two_tasks).
  - repeat constructor; cbn; lia.
  - intros r [<-|[<-|[]]]; exact I.
Defined.
